(** * obsidian-open-in-new-tab: the leaf-reuse decisions of [src/main.ts]

    A shallow embedding of the plugin's two entry points,

    - the wrapper installed around [Workspace.prototype.openLinkText]
      ([monkeyPatchOpenLinkText]), and
    - the capture-phase click listener ([generateClickHandler]) with its
      four handlers,

    over an explicit model of what they touch in the host: the open leaves,
    the active leaf, and the calls made on host objects.  The host calls are
    recorded in a trace, in program order. *)

From Stdlib Require Import String Ascii List Bool Arith Lia.
Import ListNotations.
Open Scope string_scope.
Open Scope list_scope.

(** ** JavaScript string primitives used by the plugin *)

Module JS.

(** [s.split(sep)] for a one-character separator: the pieces between the
    occurrences of [sep], in order; never an empty array. *)
Fixpoint split (sep : ascii) (s : string) : list string :=
  match s with
  | EmptyString => [EmptyString]
  | String c rest =>
      if Ascii.eqb c sep then EmptyString :: split sep rest
      else match split sep rest with
           | piece :: pieces => String c piece :: pieces
           | [] => [String c EmptyString]
           end
  end.

(** [s.endsWith(searchString)]: the last [length searchString] characters
    of [s] are [searchString]. *)
Definition endsWith (s searchString : string) : bool :=
  let len := String.length s in
  let searchLength := String.length searchString in
  Nat.leb searchLength len
  && String.eqb (substring (len - searchLength) searchLength s) searchString.

(** A value that may be [undefined]. *)
Definition maybe (A : Type) := option A.

(** String conversion of a possibly-undefined string, as a template
    literal or a string argument performs it. *)
Definition toString (v : maybe string) : string :=
  match v with
  | Some s => s
  | None => "undefined"
  end.

(** [v === s] for a possibly-undefined [v] and a string [s]. *)
Definition strictEq (v : maybe string) (s : string) : bool :=
  match v with
  | Some x => String.eqb x s
  | None => false
  end.

(** Truthiness of a possibly-undefined boolean ([x || false], [x && ...]). *)
Definition truthy (v : maybe bool) : bool :=
  match v with
  | Some b => b
  | None => false
  end.

(** The characters of [s] before its first [sep] (all of [s] when it has
    none): the wording of the link-target definition. *)
Fixpoint before_first (sep : ascii) (s : string) : string :=
  match s with
  | EmptyString => EmptyString
  | String c rest =>
      if Ascii.eqb c sep then EmptyString else String c (before_first sep rest)
  end.

(** [c] occurs in [s]. *)
Fixpoint occurs (c : ascii) (s : string) : bool :=
  match s with
  | EmptyString => false
  | String d rest => Ascii.eqb d c || occurs c rest
  end.

End JS.

(** ** The host: leaves, DOM elements, events *)

(** [leaf.getViewState()]: a content-kind tag and an optional state object
    with an optional [file]. *)
Record ViewStateState := { file : JS.maybe string }.

Record ViewState := {
  type : string;
  state : JS.maybe ViewStateState
}.

(** A leaf is an object of the host; [leafId] stands for its identity. *)
Record WorkspaceLeaf := {
  leafId : nat;
  getViewState : ViewState
}.

(** [viewState.state?.file] *)
Definition state_file (viewState : ViewState) : JS.maybe string :=
  match state viewState with
  | Some st => file st
  | None => None
  end.

(** A DOM element: its class list, its attributes and its parent. *)
#[warnings="-register-all"]
Inductive Element : Type :=
| mkElement (classList : list string)
            (attributes : list (string * string))
            (parentElement : option Element).

Definition classList (e : Element) : list string :=
  match e with mkElement cl _ _ => cl end.

Definition attributes (e : Element) : list (string * string) :=
  match e with mkElement _ attrs _ => attrs end.

Definition parentElement (e : Element) : option Element :=
  match e with mkElement _ _ p => p end.

(** [classList.contains(token)], and [Array.includes] on strings. *)
Fixpoint contains (tokens : list string) (token : string) : bool :=
  match tokens with
  | [] => false
  | t :: rest => String.eqb t token || contains rest token
  end.

(** [element.getAttribute(name)]: [null] when the attribute is not set. *)
Fixpoint lookupAttribute (attrs : list (string * string)) (name : string)
  : JS.maybe string :=
  match attrs with
  | [] => None
  | (k, v) :: rest => if String.eqb k name then Some v else lookupAttribute rest name
  end.

Definition getAttribute (e : Element) (name : string) : JS.maybe string :=
  lookupAttribute (attributes e) name.

(** [element.closest("." ++ className)]: the element itself or its nearest
    ancestor with the class; [null] when there is none. *)
Fixpoint closestWithClass (className : string) (e : Element) : option Element :=
  match e with
  | mkElement cl _ parent =>
      if contains cl className then Some e
      else match parent with
           | Some p => closestWithClass className p
           | None => None
           end
  end.

(** A mouse event as the listener reads it. *)
Record MouseEvent := {
  eventType : string;
  bubbles : bool;
  cancelable : bool;
  shiftKey : bool;
  ctrlKey : bool;
  metaKey : bool;
  altKey : bool;
  target : Element
}.

(** The dictionary given to [new MouseEvent(type, init)]; members left out
    take their default, [false]. *)
Record MouseEventInit := {
  init_bubbles : bool;
  init_cancelable : bool;
  init_shiftKey : bool;
  init_ctrlKey : bool;
  init_metaKey : bool;
  init_altKey : bool
}.

(** The event the listeners see when an event built from [init] is
    dispatched on [el]. *)
Definition dispatched (evType : string) (init : MouseEventInit) (el : Element)
  : MouseEvent :=
  {| eventType := evType;
     bubbles := init_bubbles init;
     cancelable := init_cancelable init;
     shiftKey := init_shiftKey init;
     ctrlKey := init_ctrlKey init;
     metaKey := init_metaKey init;
     altKey := init_altKey init;
     target := el |}.

Section Plugin.

(** [OpenViewState] is declared by the host's API; the plugin only passes
    it through. *)
Context {OpenViewState : Type}.

(** Calls made on host objects, as recorded in the trace. *)
Inductive Call : Type :=
| SetActiveLeaf (leaf : WorkspaceLeaf)
    (* workspace.setActiveLeaf(leaf) *)
| OldOpenLinkText (linkText sourcePath : string) (newLeaf : JS.maybe bool)
                  (openViewState : JS.maybe OpenViewState)
    (* the wrapped original openLinkText *)
| StopPropagation (event : MouseEvent)
    (* event.stopPropagation() *)
| DispatchEvent (el : Element) (event : MouseEvent).
    (* el.dispatchEvent(event) *)

(** What the plugin reads and changes in the host. *)
Record Host := {
  allLeaves : list WorkspaceLeaf;
  activeLeaf : option WorkspaceLeaf;
  trace : list Call
}.

(** Host-state passing. *)
Definition M (A : Type) : Type := Host -> A * Host.

Definition ret {A : Type} (a : A) : M A := fun h => (a, h).

Definition bind {A B : Type} (c : M A) (k : A -> M B) : M B :=
  fun h => let (a, h') := c h in k a h'.

Definition exec {A : Type} (c : M A) (h : Host) : Host := snd (c h).

Notation "x <- c ;; k" := (bind c (fun x => k))
  (at level 61, c at next level, right associativity).
Notation "c ;; k" := (bind c (fun _ => k))
  (at level 61, right associativity).

Definition record (c : Call) : M unit :=
  fun h => (tt, {| allLeaves := allLeaves h;
                   activeLeaf := activeLeaf h;
                   trace := trace h ++ [c] |}).

(** [workspace.setActiveLeaf(leaf)] *)
Definition setActiveLeaf (leaf : WorkspaceLeaf) : M unit :=
  fun h => (tt, {| allLeaves := allLeaves h;
                   activeLeaf := Some leaf;
                   trace := trace h ++ [SetActiveLeaf leaf] |}).

(** [workspace.iterateAllLeaves(callback)]: the callback runs on every
    open leaf, in the host's order.  [L] is the local variable of the
    enclosing function that the callback assigns. *)
Fixpoint forEachLeaf {L : Type} (callback : WorkspaceLeaf -> L -> M L)
         (leaves : list WorkspaceLeaf) (local : L) : M L :=
  match leaves with
  | [] => ret local
  | leaf :: rest =>
      local' <- callback leaf local ;;
      forEachLeaf callback rest local'
  end.

Definition iterateAllLeaves {L : Type} (callback : WorkspaceLeaf -> L -> M L)
           (local : L) : M L :=
  fun h => forEachLeaf callback (allLeaves h) local h.

(** [workspace.getLeavesOfType(viewType)]: the open leaves whose view has
    that type, in the host's order. *)
Definition getLeavesOfType (viewType : string) : M (list WorkspaceLeaf) :=
  fun h =>
    (filter (fun leaf => String.eqb (type (getViewState leaf)) viewType)
            (allLeaves h), h).

(** An [openLinkText] function. *)
Definition OpenLinkTextFn : Type :=
  string -> string -> JS.maybe bool -> JS.maybe OpenViewState -> M unit.

(** The host's original primitive: what it does to the panes is the
    host's business; the call and its arguments are recorded. *)
Definition hostOpenLinkText : OpenLinkTextFn :=
  fun linkText sourcePath newLeaf openViewState =>
    record (OldOpenLinkText linkText sourcePath newLeaf openViewState).

(** ** [monkeyPatchOpenLinkText] (main.ts 19-73) *)

(** [linkText.split("#")?.[0]] *)
Definition fileNameOf (linkText : string) : JS.maybe string :=
  nth_error (JS.split "#"%char linkText) 0.

(** [fileName === "" || `${fileName}.md` === sourcePath] *)
Definition isSameFileOf (fileName : JS.maybe string) (sourcePath : string) : bool :=
  JS.strictEq fileName "" || String.eqb (JS.toString fileName ++ ".md")%string sourcePath.

(** [viewState.type === 'markdown' && viewState.state?.file?.endsWith(`${fileName}.md`)] *)
Definition matchesMarkdownFile (fileName : JS.maybe string) (viewState : ViewState) : bool :=
  String.eqb (type viewState) "markdown"
  && JS.truthy (option_map (fun f => JS.endsWith f (JS.toString fileName ++ ".md")%string)
                           (state_file viewState)).

(** [viewState.type !== 'markdown' && viewState.state?.file?.endsWith(fileName)] *)
Definition matchesNonMarkdownFile (fileName : JS.maybe string) (viewState : ViewState) : bool :=
  negb (String.eqb (type viewState) "markdown")
  && JS.truthy (option_map (fun f => JS.endsWith f (JS.toString fileName))
                           (state_file viewState)).

Definition leafMatches (fileName : JS.maybe string) (leaf : WorkspaceLeaf) : bool :=
  let viewState := getViewState leaf in
  matchesMarkdownFile fileName viewState || matchesNonMarkdownFile fileName viewState.

(** The callback given to [iterateAllLeaves] (main.ts 40-51);
    [fileAlreadyOpen] is the variable it assigns. *)
Definition scanCallback (fileName : JS.maybe string)
           (leaf : WorkspaceLeaf) (fileAlreadyOpen : bool) : M bool :=
  if leafMatches fileName leaf
  then setActiveLeaf leaf ;; ret true
  else ret fileAlreadyOpen.

(** Lines 37-52: the scan, returning the final [fileAlreadyOpen]. *)
Definition scanOpenLeaves (fileName : JS.maybe string) (isSameFile : bool) : M bool :=
  if negb isSameFile
  then iterateAllLeaves (scanCallback fileName) false
  else ret false.

(** Lines 54-61: the flag handed on. *)
Definition openNewLeafOf (isSameFile fileAlreadyOpen : bool) (newLeaf : JS.maybe bool) : bool :=
  if isSameFile then JS.truthy newLeaf || false
  else if fileAlreadyOpen then false
  else true.

(** The function installed in place of [oldOpenLinkText]. *)
Definition openLinkText (oldOpenLinkText : option OpenLinkTextFn) : OpenLinkTextFn :=
  fun linkText sourcePath newLeaf openViewState =>
    let fileName := fileNameOf linkText in
    let isSameFile := isSameFileOf fileName sourcePath in
    fileAlreadyOpen <- scanOpenLeaves fileName isSameFile ;;
    let openNewLeaf := openNewLeafOf isSameFile fileAlreadyOpen newLeaf in
    match oldOpenLinkText with
    | Some old => old linkText sourcePath (Some openNewLeaf) openViewState
    | None => ret tt
    end.

(** ** The click listener (main.ts 76-172) *)

(** [event.stopPropagation()] *)
Definition stopPropagation (event : MouseEvent) : M unit :=
  record (StopPropagation event).

(** [el.dispatchEvent(new MouseEvent(evType, init))] *)
Definition dispatchEvent (el : Element) (evType : string) (init : MouseEventInit)
  : M unit :=
  record (DispatchEvent el (dispatched evType init el)).

(** [appInstance.workspace.openLinkText]: [onload] (lines 7-13) runs
    [monkeyPatchOpenLinkText] before it registers the listener, so when the
    listener runs the workspace carries the wrapper of lines 25-70 around
    the host's original primitive. *)
Definition workspaceOpenLinkText : OpenLinkTextFn :=
  openLinkText (Some hostOpenLinkText).

(** The callback of lines 115-121; [result] is the variable it assigns. *)
Definition navCallback (path : string) (leaf : WorkspaceLeaf) (result : bool) : M bool :=
  if JS.strictEq (state_file (getViewState leaf)) path
  then setActiveLeaf leaf ;; ret true
  else ret result.

(** Lines 106-135. *)
Definition _handleNavigationPanel (event : MouseEvent) (target : Element) : M unit :=
  match closestWithClass "nav-file-title" target with
  | None => ret tt
  | Some titleEl =>
      match getAttribute titleEl "data-path" with
      | None => ret tt
      | Some path =>
          if String.eqb path "" then ret tt
          else
            result <- iterateAllLeaves (navCallback path) false ;;
            emptyLeaves <- getLeavesOfType "empty" ;;
            match emptyLeaves with
            | firstEmpty :: _ => setActiveLeaf firstEmpty
            | [] =>
                if negb result
                then stopPropagation event ;;
                     workspaceOpenLinkText path path (Some true) None
                else ret tt
            end
      end
  end.

(** [{ bubbles: true, cancelable: true, metaKey: true }] *)
Definition metaClickInit : MouseEventInit :=
  {| init_bubbles := true;
     init_cancelable := true;
     init_shiftKey := false;
     init_ctrlKey := false;
     init_metaKey := true;
     init_altKey := false |}.

(** Lines 137-147. *)
Definition _handleDailyNoteRibbon (event : MouseEvent) (target : Element) : M unit :=
  stopPropagation event ;;
  dispatchEvent target "click" metaClickInit.

(** Lines 149-159. *)
Definition _handleUniqueNoteRibbon (event : MouseEvent) (target : Element) : M unit :=
  stopPropagation event ;;
  dispatchEvent target "click" metaClickInit.

(** Lines 161-171. *)
Definition _handleSearchResult (event : MouseEvent) (target : Element) : M unit :=
  stopPropagation event ;;
  dispatchEvent target "click" metaClickInit.

(** Lines 79-84. *)
Definition pureClick (event : MouseEvent) : bool :=
  negb (shiftKey event)
  && negb (ctrlKey event)
  && negb (metaKey event)
  && negb (shiftKey event)
  && negb (altKey event).

(** Lines 89-91. *)
Definition isNavFile (target : Element) : bool :=
  contains (classList target) "nav-file-title"
  || contains (classList target) "nav-file-title-content".

(** Line 94. *)
Definition isDailyNoteRibbon (target : Element) : bool :=
  JS.strictEq (getAttribute target "aria-label") "Open today's daily note"
  && contains (classList target) "side-dock-ribbon-action".

(** Line 97. *)
Definition isUniqueNoteRibbon (target : Element) : bool :=
  JS.strictEq (getAttribute target "aria-label") "Create new unique note"
  && contains (classList target) "side-dock-ribbon-action".

(** Line 100. *)
Definition classesToCheck : list string :=
  ["tree-item search-result"; "search-result-file-title"; "tree-item-inner";
   "search-result-file-matches"; "search-result-file-match"; "search-result"].

(** Line 101. *)
Definition isSearchResult (target : Element) : bool :=
  existsb (fun className => contains classesToCheck className) (classList target).

(** The listener returned by [generateClickHandler] (lines 77-103). *)
Definition generateClickHandler (event : MouseEvent) : M unit :=
  if negb (pureClick event) then ret tt
  else
    let target := target event in
    if isNavFile target then _handleNavigationPanel event target
    else if isDailyNoteRibbon target then _handleDailyNoteRibbon event target
    else if isUniqueNoteRibbon target then _handleUniqueNoteRibbon event target
    else if isSearchResult target then _handleSearchResult event target
    else ret tt.

(** ** Vocabulary of the specification *)

(** The click classification: the first test of the listener that
    succeeds, in the listener's order. *)
Inductive Classification : Type :=
| NavigationFile
| DailyNoteRibbon
| UniqueNoteRibbon
| SearchResult
| Unhandled.

Definition classify (target : Element) : Classification :=
  if isNavFile target then NavigationFile
  else if isDailyNoteRibbon target then DailyNoteRibbon
  else if isUniqueNoteRibbon target then UniqueNoteRibbon
  else if isSearchResult target then SearchResult
  else Unhandled.

(** Some modifier key is held. *)
Definition modifierHeld (event : MouseEvent) : Prop :=
  shiftKey event = true \/ ctrlKey event = true
  \/ metaKey event = true \/ altKey event = true.

(** [s] ends with [suffix]. *)
Definition ends_with (s suffix : string) : Prop :=
  exists before, s = (before ++ suffix)%string.

(** A pane matches a file-name component: the two cases of the
    interceptor's scan. *)
Definition pane_matches (fileNameComponent : string) (leaf : WorkspaceLeaf) : Prop :=
  (type (getViewState leaf) = "markdown"
   /\ exists path, state_file (getViewState leaf) = Some path
                   /\ ends_with path (fileNameComponent ++ ".md")%string)
  \/ (type (getViewState leaf) <> "markdown"
      /\ exists path, state_file (getViewState leaf) = Some path
                      /\ ends_with path fileNameComponent).

(** The pane displays exactly [path]. *)
Definition displays (path : string) (leaf : WorkspaceLeaf) : bool :=
  JS.strictEq (state_file (getViewState leaf)) path.

(** The pane's view type is [viewType]. *)
Definition hasType (viewType : string) (leaf : WorkspaceLeaf) : bool :=
  String.eqb (type (getViewState leaf)) viewType.

(** The host after the leaves of [activated] were made active one after
    the other: the last of them is active, each call is in the trace. *)
Definition afterActivating (activated : list WorkspaceLeaf) (h : Host) : Host :=
  {| allLeaves := allLeaves h;
     activeLeaf := last (map Some activated) (activeLeaf h);
     trace := trace h ++ map SetActiveLeaf activated |}.

(** The host after further calls that leave the panes alone. *)
Definition afterCalls (calls : list Call) (h : Host) : Host :=
  {| allLeaves := allLeaves h;
     activeLeaf := activeLeaf h;
     trace := trace h ++ calls |}.

(** The synthesized click as the listeners see it on [el]. *)
Definition metaClick (el : Element) : MouseEvent :=
  dispatched "click" metaClickInit el.

(** A call is a navigation: a call of the host's [openLinkText]. *)
Definition isNavigation (c : Call) : bool :=
  match c with
  | OldOpenLinkText _ _ _ _ => true
  | _ => false
  end.

Definition isStopPropagation (c : Call) : bool :=
  match c with
  | StopPropagation _ => true
  | _ => false
  end.

Definition isDispatchEvent (c : Call) : bool :=
  match c with
  | DispatchEvent _ _ => true
  | _ => false
  end.

(** ** The claims that the code does not meet, as they are worded *)

(** A navigation-file click whose path an open pane [leaf] displays, no
    empty pane open: the pane is activated, the click's propagation is
    stopped, and no open-link call is made. *)
Definition nav_match_suppressed (event : MouseEvent) (leaf : WorkspaceLeaf) (h : Host) : Prop :=
  exists calls,
    trace (exec (generateClickHandler event) h) = trace h ++ calls
    /\ In (SetActiveLeaf leaf) calls
    /\ existsb isStopPropagation calls = true
    /\ existsb isNavigation calls = false.


(** A ribbon or search-result click: propagation is stopped once and one
    click is dispatched on the same target, with the meta key on and the
    bubbling and cancelable flags of the original event. *)
Definition redispatched_with_original_flags (event : MouseEvent) (h : Host) : Prop :=
  exists synthesized,
    trace (exec (generateClickHandler event) h)
    = trace h ++ [StopPropagation event; DispatchEvent (target event) synthesized]
    /\ metaKey synthesized = true
    /\ bubbles synthesized = bubbles event
    /\ cancelable synthesized = cancelable event.

End Plugin.

Arguments Call : clear implicits.
Arguments Host : clear implicits.
Arguments M : clear implicits.
Arguments OpenLinkTextFn : clear implicits.

(** ** The listener with the workspace's method made explicit *)

Section WorkspaceMethod.

Context {OpenViewState : Type}.

Local Notation "x <- c ;; k" := (bind c (fun x => k))
  (at level 61, c at next level, right associativity).
Local Notation "c ;; k" := (bind c (fun _ => k))
  (at level 61, right associativity).

(** [_handleNavigationPanel] (lines 106-135) where
    [appInstance.workspace.openLinkText] is the function
    [workspaceMethod]: after [onload] (lines 7-13) has run
    [monkeyPatchOpenLinkText], that is the wrapper around the original. *)
Definition handleNavigationPanelWith (workspaceMethod : OpenLinkTextFn OpenViewState)
           (event : MouseEvent) (target : Element) : M OpenViewState unit :=
  match closestWithClass "nav-file-title" target with
  | None => ret tt
  | Some titleEl =>
      match getAttribute titleEl "data-path" with
      | None => ret tt
      | Some path =>
          if String.eqb path "" then ret tt
          else
            result <- iterateAllLeaves (navCallback path) false ;;
            emptyLeaves <- getLeavesOfType "empty" ;;
            match emptyLeaves with
            | firstEmpty :: _ => setActiveLeaf firstEmpty
            | [] =>
                if negb result
                then stopPropagation event ;;
                     workspaceMethod path path (Some true) None
                else ret tt
            end
      end
  end.

(** The listener (lines 77-103) over that handler. *)
Definition generateClickHandlerWith (workspaceMethod : OpenLinkTextFn OpenViewState)
           (event : MouseEvent) : M OpenViewState unit :=
  if negb (pureClick event) then ret tt
  else
    let target := target event in
    if isNavFile target then handleNavigationPanelWith workspaceMethod event target
    else if isDailyNoteRibbon target then _handleDailyNoteRibbon event target
    else if isUniqueNoteRibbon target then _handleUniqueNoteRibbon event target
    else if isSearchResult target then _handleSearchResult event target
    else ret tt.

(** The active leaf, when there is one, is one of the open leaves. *)
Definition activeLeafOpen (h : Host OpenViewState) : Prop :=
  match activeLeaf h with
  | Some leaf => In leaf (allLeaves h)
  | None => True
  end.

(** Every leaf of [leaves] is open in [h]. *)
Definition allOpen (leaves : list WorkspaceLeaf) (h : Host OpenViewState) : Prop :=
  forall leaf, In leaf leaves -> In leaf (allLeaves h).

(** The entries of [classesToCheck] that are single class tokens. *)
Definition searchResultTokens : list string :=
  ["search-result-file-title"; "tree-item-inner"; "search-result-file-matches";
   "search-result-file-match"; "search-result"].

(** No token of the class list holds a space, as the DOM keeps them. *)
Definition tokensWithoutSpace (el : Element) : Prop :=
  forall className, In className (classList el) -> JS.occurs " "%char className = false.

End WorkspaceMethod.

(** ** Concrete hosts, elements and clicks *)

Module Scenario.

Definition showing (id : nat) (viewType path : string) : WorkspaceLeaf :=
  {| leafId := id;
     getViewState := {| type := viewType; state := Some {| file := Some path |} |} |}.

Definition emptyLeaf (id : nat) : WorkspaceLeaf :=
  {| leafId := id;
     getViewState := {| type := "empty"; state := Some {| file := None |} |} |}.

Definition leafA : WorkspaceLeaf := showing 1 "markdown" "A.md".
Definition leafB : WorkspaceLeaf := showing 2 "markdown" "B.md".
Definition leafX : WorkspaceLeaf := showing 3 "markdown" "Notes/X.md".
Definition leafNew : WorkspaceLeaf := emptyLeaf 4.

Definition hostWith (leaves : list WorkspaceLeaf) : Host unit :=
  {| allLeaves := leaves; activeLeaf := hd_error leaves; trace := [] |}.

(** Two notes open. *)
Definition hostAB : Host unit := hostWith [leafA; leafB].

(** A note and the file of the navigation row open. *)
Definition hostAX : Host unit := hostWith [leafA; leafX].

(** The same, and a "New tab" pane. *)
Definition hostAXNew : Host unit := hostWith [leafA; leafX; leafNew].

(** A note and a picture open; another picture of the same name exists. *)
Definition leafPicture : WorkspaceLeaf := showing 5 "image" "img/pic.png".
Definition hostAPicture : Host unit := hostWith [leafA; leafPicture].

(** A row of the file tree and the title inside it. *)
Definition rowX : Element :=
  mkElement ["tree-item-self"; "nav-file-title"] [("data-path", "Notes/X.md")] None.

Definition titleX : Element :=
  mkElement ["nav-file-title-content"] [] (Some rowX).

(** A title outside any row, and a row without a path. *)
Definition strayTitle : Element :=
  mkElement ["nav-file-title-content"] [] None.

Definition rowNoPath : Element :=
  mkElement ["nav-file-title"] [] None.

Definition searchMatch : Element :=
  mkElement ["search-result-file-match"] [] None.

Definition dailyRibbon : Element :=
  mkElement ["clickable-icon"; "side-dock-ribbon-action"]
            [("aria-label", "Open today's daily note")] None.

(** A click with no modifier, as the browser delivers it. *)
Definition click (el : Element) : MouseEvent :=
  {| eventType := "click"; bubbles := true; cancelable := true;
     shiftKey := false; ctrlKey := false; metaKey := false; altKey := false;
     target := el |}.

(** A click with the control key held. *)
Definition ctrlClick (el : Element) : MouseEvent :=
  {| eventType := "click"; bubbles := true; cancelable := true;
     shiftKey := false; ctrlKey := true; metaKey := false; altKey := false;
     target := el |}.

(** [el.dispatchEvent(new MouseEvent("click"))]: a click made by a script
    with no init dictionary neither bubbles nor can be cancelled. *)
Definition scriptedClick (el : Element) : MouseEvent :=
  {| eventType := "click"; bubbles := false; cancelable := false;
     shiftKey := false; ctrlKey := false; metaKey := false; altKey := false;
     target := el |}.

End Scenario.


(** Further hosts and elements. *)

Module MoreScenario.

Import Scenario.

(** A note kept in a folder, open. *)
Definition leafDeep : WorkspaceLeaf := showing 6 "markdown" "Projects/Plan.md".
Definition hostDeep : Host unit := hostWith [leafA; leafDeep].

(** Only B.md open. *)
Definition hostB : Host unit := hostWith [leafB].

(** A title of the file tree as the host renders it: it also carries a
    class of the search-result list. *)
Definition rowPicture : Element :=
  mkElement ["tree-item-self"; "nav-file-title"] [("data-path", "pic.png")] None.

Definition titlePicture : Element :=
  mkElement ["tree-item-inner"; "nav-file-title-content"] [] (Some rowPicture).

(** B.md open beside another note and the file explorer in the side bar. *)
Definition leafExplorer : WorkspaceLeaf :=
  {| leafId := 7;
     getViewState := {| type := "file-explorer"; state := Some {| file := None |} |} |}.

Definition hostABExplorer : Host unit := hostWith [leafExplorer; leafA; leafB].

(** An element the listener does not know. *)
Definition plainButton : Element :=
  mkElement ["clickable-icon"] [("aria-label", "Open settings")] None.

(** A folder title of the file tree. *)
Definition folderTitle : Element :=
  mkElement ["tree-item-inner"; "nav-folder-title-content"] [] None.

End MoreScenario.

(** ** Facts about the string primitives *)

Module JSFacts.

Lemma split_head (sep : ascii) (s : string) :
  exists pieces, JS.split sep s = JS.before_first sep s :: pieces.
Proof.
  induction s as [| c rest [pieces IH]]; simpl.
  - now exists [].
  - destruct (Ascii.eqb c sep).
    + eauto.
    + rewrite IH. eauto.
Qed.

Lemma before_first_free (sep : ascii) (s : string) :
  JS.occurs sep (JS.before_first sep s) = false.
Proof.
  induction s as [| c rest IH]; simpl; [reflexivity |].
  destruct (Ascii.eqb c sep) eqn:E; simpl; [reflexivity |].
  now rewrite E.
Qed.

Lemma before_first_cut (sep : ascii) (s : string) :
  s = JS.before_first sep s
  \/ exists rest, s = (JS.before_first sep s ++ String sep rest)%string.
Proof.
  induction s as [| c rest IH]; simpl; [now left |].
  destruct (Ascii.eqb c sep) eqn:E.
  - apply Ascii.eqb_eq in E. subst c. right. now exists rest.
  - destruct IH as [IH | [tail IH]].
    + left. now rewrite <- IH.
    + right. exists tail. simpl. now rewrite <- IH.
Qed.

Lemma before_first_empty_iff (sep : ascii) (s : string) :
  JS.before_first sep s = EmptyString
  <-> s = EmptyString \/ exists rest, s = String sep rest.
Proof.
  destruct s as [| c rest]; simpl.
  - split; auto.
  - destruct (Ascii.eqb c sep) eqn:E.
    + apply Ascii.eqb_eq in E. subst c. split; eauto.
    + split; [discriminate |].
      intros [H | [tail H]]; [discriminate |].
      injection H as -> _. now rewrite Ascii.eqb_refl in E.
Qed.

Lemma substring_whole (s : string) : substring 0 (String.length s) s = s.
Proof. induction s as [| c rest IH]; simpl; [reflexivity | now rewrite IH]. Qed.

Lemma substring_cut (s : string) :
  forall i, i <= String.length s ->
  s = (substring 0 i s ++ substring i (String.length s - i) s)%string.
Proof.
  induction s as [| c rest IH]; intros i Hi; simpl in Hi.
  - assert (i = 0) by lia. subst i. reflexivity.
  - destruct i as [| i].
    + simpl. now rewrite substring_whole.
    + simpl. f_equal. apply IH. lia.
Qed.

Lemma length_app (a b : string) :
  String.length (a ++ b)%string = String.length a + String.length b.
Proof. induction a as [| c a IH]; simpl; [reflexivity | now rewrite IH]. Qed.

Lemma substring_suffix (a b : string) :
  substring (String.length a) (String.length b) (a ++ b)%string = b.
Proof.
  induction a as [| c a IH]; simpl.
  - apply substring_whole.
  - exact IH.
Qed.

(** [endsWith] decides "ends with". *)
Lemma endsWith_spec (s searchString : string) :
  JS.endsWith s searchString = true <-> exists before, s = (before ++ searchString)%string.
Proof.
  unfold JS.endsWith. rewrite andb_true_iff, Nat.leb_le, String.eqb_eq. split.
  - intros [Hle Hsub].
    exists (substring 0 (String.length s - String.length searchString) s).
    pose proof (substring_cut s (String.length s - String.length searchString)) as Hcut.
    replace (String.length s - (String.length s - String.length searchString))
      with (String.length searchString) in Hcut by lia.
    rewrite Hsub in Hcut. apply Hcut. lia.
  - intros [before ->]. rewrite length_app. split; [lia |].
    replace (String.length before + String.length searchString - String.length searchString)
      with (String.length before) by lia.
    apply substring_suffix.
Qed.

End JSFacts.

(** ** Facts about the host model *)

Section HostFacts.

Context {OpenViewState : Type}.

Implicit Types (h : Host OpenViewState) (leaf : WorkspaceLeaf).

Lemma last_cons_default {A : Type} (l : list A) :
  forall x d, last (x :: l) d = last l x.
Proof.
  induction l as [| y l IH]; intros x d; [reflexivity |].
  change (last (x :: y :: l) d) with (last (y :: l) d).
  now rewrite !IH.
Qed.

Lemma last_map_Some_snoc {A : Type} (front : list A) (x : A) (d : option A) :
  last (map Some (front ++ [x])) d = Some x.
Proof. rewrite map_app. simpl. apply last_last. Qed.

Lemma afterActivating_nil h : afterActivating [] h = h.
Proof. destruct h. unfold afterActivating. simpl. now rewrite app_nil_r. Qed.

Lemma afterCalls_nil h : afterCalls [] h = h.
Proof. destruct h. unfold afterCalls. simpl. now rewrite app_nil_r. Qed.

Lemma afterActivating_cons leaf (rest : list WorkspaceLeaf) h :
  afterActivating rest (snd (setActiveLeaf leaf h)) = afterActivating (leaf :: rest) h.
Proof.
  unfold afterActivating, setActiveLeaf. cbn [snd allLeaves activeLeaf trace map].
  rewrite last_cons_default, <- app_assoc. reflexivity.
Qed.

(** A scan whose callback activates the leaves satisfying [p] and sets
    its flag: the flag ends up set iff some leaf satisfied [p], and the
    satisfying leaves were activated in order. *)
Lemma forEachLeaf_activate (p : WorkspaceLeaf -> bool)
      (callback : WorkspaceLeaf -> bool -> M OpenViewState bool) :
  (forall leaf flag,
      callback leaf flag
      = if p leaf then bind (setActiveLeaf leaf) (fun _ => ret true) else ret flag) ->
  forall leaves flag h,
    forEachLeaf callback leaves flag h
    = (flag || existsb p leaves, afterActivating (filter p leaves) h).
Proof.
  intros Hcb leaves. induction leaves as [| leaf rest IH]; intros flag h; simpl.
  - unfold ret. now rewrite orb_false_r, afterActivating_nil.
  - unfold bind at 1. rewrite Hcb. destruct (p leaf).
    + unfold bind, ret. simpl fst. cbv beta iota.
      change (let (a, h') := let (_, h') := setActiveLeaf leaf h in (true, h') in
              forEachLeaf callback rest a h')
        with (forEachLeaf callback rest true (snd (setActiveLeaf leaf h))).
      rewrite IH, afterActivating_cons. simpl. now rewrite orb_true_r.
    + unfold ret. now rewrite IH.
Qed.

Lemma existsb_filter_nil {A : Type} (p : A -> bool) (l : list A) :
  existsb p l = match filter p l with [] => false | _ :: _ => true end.
Proof.
  induction l as [| x l IH]; simpl; [reflexivity |].
  destruct (p x); simpl; [reflexivity | exact IH].
Qed.

Lemma filter_nil_iff {A : Type} (p : A -> bool) (l : list A) :
  filter p l = [] <-> forall x, In x l -> p x = false.
Proof.
  split.
  - intros Hnil x Hin. destruct (p x) eqn:E; [| reflexivity].
    assert (In x (filter p l)) as Hf by (apply filter_In; auto).
    rewrite Hnil in Hf. destruct Hf.
  - intros Hall. induction l as [| x l IH]; simpl; [reflexivity |].
    rewrite (Hall x) by (now left). apply IH. intros y Hy. apply Hall. now right.
Qed.

Lemma fileNameOf_before_first (linkText : string) :
  fileNameOf linkText = Some (JS.before_first "#"%char linkText).
Proof.
  unfold fileNameOf.
  destruct (JSFacts.split_head "#"%char linkText) as [pieces ->]. reflexivity.
Qed.

(** The interceptor's scan, run. *)
Lemma scanOpenLeaves_run (fileName : JS.maybe string) h :
  scanOpenLeaves fileName false h
  = (existsb (leafMatches fileName) (allLeaves h),
     afterActivating (filter (leafMatches fileName) (allLeaves h)) h).
Proof.
  unfold scanOpenLeaves, iterateAllLeaves. simpl.
  now rewrite (forEachLeaf_activate (leafMatches fileName)).
Qed.

(** The navigation handler's scan, run. *)
Lemma navScan_run (path : string) h :
  iterateAllLeaves (navCallback path) false h
  = (existsb (displays path) (allLeaves h),
     afterActivating (filter (displays path) (allLeaves h)) h).
Proof.
  unfold iterateAllLeaves.
  now rewrite (forEachLeaf_activate (displays path)).
Qed.

(** The code's match test says what the specification's words say. *)
Lemma leafMatches_spec (fileNameComponent : string) (leaf : WorkspaceLeaf) :
  leafMatches (Some fileNameComponent) leaf = true
  <-> pane_matches fileNameComponent leaf.
Proof.
  unfold leafMatches, matchesMarkdownFile, matchesNonMarkdownFile, pane_matches, ends_with.
  simpl JS.toString.
  rewrite orb_true_iff, !andb_true_iff, negb_true_iff.
  rewrite String.eqb_eq, String.eqb_neq.
  destruct (state_file (getViewState leaf)) as [path |]; simpl.
  - rewrite !JSFacts.endsWith_spec. split.
    + intros [[Ht Hs] | [Ht Hs]]; [left | right]; split; eauto.
    + intros [[Ht [p [Hp Hs]]] | [Ht [p [Hp Hs]]]]; injection Hp as <-; auto.
  - split.
    + intros [[_ H] | [_ H]]; discriminate.
    + intros [[_ [p [Hp _]]] | [_ [p [Hp _]]]]; discriminate.
Qed.

End HostFacts.

(** ** The link-resolution interceptor *)

Section Interceptor.

Context {OpenViewState : Type}.

Implicit Types (h : Host OpenViewState) (old : OpenLinkTextFn OpenViewState).
Implicit Types (requestedNewPane : JS.maybe bool) (openViewOptions : JS.maybe OpenViewState).

Lemma isSameFileOf_iff (fileNameComponent sourcePath : string) :
  isSameFileOf (Some fileNameComponent) sourcePath = true
  <-> fileNameComponent = ""%string \/ (fileNameComponent ++ ".md")%string = sourcePath.
Proof.
  unfold isSameFileOf. simpl. now rewrite orb_true_iff, !String.eqb_eq.
Qed.

(** On a same-file link nothing is scanned and the caller's flag goes on. *)
Lemma openLinkText_same_file old linkText sourcePath requestedNewPane openViewOptions h :
  isSameFileOf (fileNameOf linkText) sourcePath = true ->
  openLinkText (Some old) linkText sourcePath requestedNewPane openViewOptions h
  = old linkText sourcePath
        (Some (match requestedNewPane with Some b => b | None => false end))
        openViewOptions h.
Proof.
  intros Hsame. unfold openLinkText, bind. rewrite Hsame. simpl.
  rewrite orb_false_r. reflexivity.
Qed.

(** On any other link the scan runs first; the flag says whether it found
    nothing. *)
Lemma openLinkText_other_file (oldOpenLinkText : option (OpenLinkTextFn OpenViewState))
      linkText sourcePath requestedNewPane openViewOptions h :
  isSameFileOf (fileNameOf linkText) sourcePath = false ->
  let matching := filter (leafMatches (fileNameOf linkText)) (allLeaves h) in
  openLinkText oldOpenLinkText linkText sourcePath requestedNewPane openViewOptions h
  = match oldOpenLinkText with
    | Some old =>
        old linkText sourcePath
            (Some (match matching with [] => true | _ :: _ => false end))
            openViewOptions (afterActivating matching h)
    | None => (tt, afterActivating matching h)
    end.
Proof.
  intros Hother matching. unfold openLinkText, bind. rewrite Hother.
  rewrite scanOpenLeaves_run. fold matching.
  unfold openNewLeafOf. rewrite existsb_filter_nil. fold matching.
  destruct oldOpenLinkText; destruct matching; reflexivity.
Qed.

(** C3. The file-name component is the part of the link text before its
    first "#" (it holds no "#", and the link text is it alone or it followed
    by "#" and a fragment); the same-file test holds exactly when the
    component is empty or the component followed by ".md" is the source
    path; so for an empty link text and for a link text "#fragment" the test
    holds whatever the source path, and the caller's new-pane flag (false
    when absent) is what the original primitive receives, the panes
    untouched. *)
Theorem same_file_test (linkText sourcePath : string) :
  exists fileNameComponent,
    fileNameOf linkText = Some fileNameComponent
    /\ JS.occurs "#"%char fileNameComponent = false
    /\ (linkText = fileNameComponent
        \/ exists fragment, linkText = (fileNameComponent ++ "#" ++ fragment)%string)
    /\ (isSameFileOf (fileNameOf linkText) sourcePath = true
        <-> fileNameComponent = ""%string
            \/ (fileNameComponent ++ ".md")%string = sourcePath)
    /\ ((linkText = ""%string \/ exists fragment, linkText = ("#" ++ fragment)%string) ->
        fileNameComponent = ""%string
        /\ isSameFileOf (fileNameOf linkText) sourcePath = true
        /\ forall old requestedNewPane openViewOptions h,
            openLinkText (Some old) linkText sourcePath requestedNewPane openViewOptions h
            = old linkText sourcePath
                  (Some (match requestedNewPane with Some b => b | None => false end))
                  openViewOptions h).
Proof.
  exists (JS.before_first "#"%char linkText).
  rewrite fileNameOf_before_first.
  split; [reflexivity |].
  split; [apply JSFacts.before_first_free |].
  split; [apply JSFacts.before_first_cut |].
  split; [apply isSameFileOf_iff |].
  intros Hform.
  assert (JS.before_first "#"%char linkText = ""%string) as Hempty.
  { apply JSFacts.before_first_empty_iff.
    destruct Hform as [-> | [fragment ->]]; [now left | right; now exists fragment]. }
  assert (isSameFileOf (Some (JS.before_first "#"%char linkText)) sourcePath = true) as Hsame.
  { apply isSameFileOf_iff. now left. }
  split; [exact Hempty |]. split; [exact Hsame |].
  intros old requestedNewPane openViewOptions h.
  apply openLinkText_same_file. now rewrite fileNameOf_before_first.
Qed.

(** C1. The new-pane flag the original primitive receives: on a same-file
    link the caller's flag, false when absent; otherwise false when some
    open pane matched during the scan, and true when none did. *)
Theorem effective_new_pane_flag old linkText sourcePath requestedNewPane openViewOptions h :
  let fileName := fileNameOf linkText in
  let isSameFile := isSameFileOf fileName sourcePath in
  let somePaneMatched :=
    exists leaf, In leaf (allLeaves h) /\ leafMatches fileName leaf = true in
  let scanned := afterActivating (filter (leafMatches fileName) (allLeaves h)) h in
  let resolve := openLinkText (Some old) linkText sourcePath requestedNewPane openViewOptions in
  (isSameFile = true ->
   resolve h
   = old linkText sourcePath
         (Some (match requestedNewPane with Some b => b | None => false end))
         openViewOptions h)
  /\ (isSameFile = false -> somePaneMatched ->
      resolve h = old linkText sourcePath (Some false) openViewOptions scanned)
  /\ (isSameFile = false -> ~ somePaneMatched ->
      resolve h = old linkText sourcePath (Some true) openViewOptions h).
Proof.
  intros fileName isSameFile somePaneMatched scanned resolve.
  subst resolve scanned isSameFile somePaneMatched fileName. repeat split.
  - apply openLinkText_same_file.
  - intros Hother [leaf [Hin Hmatch]].
    rewrite (openLinkText_other_file (Some old)) by exact Hother. cbv zeta.
    destruct (filter (leafMatches (fileNameOf linkText)) (allLeaves h))
      as [| m ms] eqn:Hf; [| reflexivity].
    exfalso. rewrite filter_nil_iff in Hf. specialize (Hf leaf Hin). congruence.
  - intros Hother Hnone.
    rewrite (openLinkText_other_file (Some old)) by exact Hother. cbv zeta.
    assert (filter (leafMatches (fileNameOf linkText)) (allLeaves h) = []) as ->.
    { apply filter_nil_iff. intros leaf Hin.
      destruct (leafMatches (fileNameOf linkText) leaf) eqn:E; [| reflexivity].
      exfalso. apply Hnone. now exists leaf. }
    now rewrite afterActivating_nil.
Qed.

(** C4. On a link to another file the scan activates exactly the matching
    panes, in the order of iteration: a pane matches iff its view type is
    "markdown" and its file path ends with the component followed by ".md",
    or its view type is not "markdown" and its file path ends with the
    component.  The original primitive then runs in the host where each
    match was activated in turn, so the last match is active; with no match
    it runs in the untouched host. *)
Theorem scan_activates_matching_panes old linkText sourcePath requestedNewPane openViewOptions h :
  isSameFileOf (fileNameOf linkText) sourcePath = false ->
  let fileNameComponent := JS.before_first "#"%char linkText in
  let matching := filter (leafMatches (fileNameOf linkText)) (allLeaves h) in
  (forall leaf, In leaf matching
                <-> In leaf (allLeaves h) /\ pane_matches fileNameComponent leaf)
  /\ (exists flag,
         openLinkText (Some old) linkText sourcePath requestedNewPane openViewOptions h
         = old linkText sourcePath (Some flag) openViewOptions (afterActivating matching h))
  /\ trace (afterActivating matching h) = trace h ++ map SetActiveLeaf matching
  /\ (forall earlier lastMatch,
         matching = earlier ++ [lastMatch] ->
         activeLeaf (afterActivating matching h) = Some lastMatch)
  /\ (matching = [] -> afterActivating matching h = h).
Proof.
  intros Hother fileNameComponent matching.
  split; [| split; [| split; [| split]]].
  - intros leaf. subst matching fileNameComponent.
    rewrite fileNameOf_before_first, filter_In, leafMatches_spec. reflexivity.
  - eexists. rewrite (openLinkText_other_file (Some old)) by exact Hother. reflexivity.
  - reflexivity.
  - intros earlier lastMatch Heq. unfold afterActivating. simpl.
    rewrite Heq. apply last_map_Some_snoc.
  - intros ->. apply afterActivating_nil.
Qed.

End Interceptor.

(** ** The click listener *)

Section ClickListener.

Context {OpenViewState : Type}.

Implicit Types (h : Host OpenViewState) (event : MouseEvent) (leaf : WorkspaceLeaf).

Lemma afterActivating_snoc (activated : list WorkspaceLeaf) leaf h :
  snd (setActiveLeaf leaf (afterActivating activated h))
  = afterActivating (activated ++ [leaf]) h.
Proof.
  unfold afterActivating, setActiveLeaf. cbn [snd allLeaves activeLeaf trace].
  rewrite !map_app. cbn [map]. rewrite last_last, <- app_assoc. reflexivity.
Qed.

Lemma getLeavesOfType_inv (viewType : string) (found : list WorkspaceLeaf) h :
  getLeavesOfType viewType h = (found, h) ->
  filter (hasType viewType) (allLeaves h) = found.
Proof. unfold getLeavesOfType. intros Heq. now injection Heq. Qed.

Lemma pureClick_false_iff event : pureClick event = false <-> modifierHeld event.
Proof.
  unfold pureClick, modifierHeld.
  destruct (shiftKey event), (ctrlKey event), (metaKey event), (altKey event);
    simpl; intuition congruence.
Qed.

Lemma classify_navigation (el : Element) :
  classify el = NavigationFile <-> isNavFile el = true.
Proof.
  unfold classify.
  destruct (isNavFile el), (isDailyNoteRibbon el), (isUniqueNoteRibbon el),
    (isSearchResult el); intuition congruence.
Qed.

(** What the navigation handler does once the path is read. *)
Lemma handleNavigationPanel_run event (el titleEl : Element) (path : string) h :
  closestWithClass "nav-file-title" el = Some titleEl ->
  getAttribute titleEl "data-path" = Some path ->
  path <> ""%string ->
  let matching := filter (displays path) (allLeaves h) in
  exec (_handleNavigationPanel event el) h
  = match filter (hasType "empty") (allLeaves h) with
    | firstEmpty :: _ => afterActivating (matching ++ [firstEmpty]) h
    | [] =>
        match matching with
        | [] => exec (workspaceOpenLinkText path path (Some true) None)
                     (afterCalls [StopPropagation event] h)
        | _ :: _ => afterActivating matching h
        end
    end.
Proof.
  intros Hclosest Hattr Hpath matching.
  unfold exec, _handleNavigationPanel. rewrite Hclosest, Hattr.
  apply String.eqb_neq in Hpath. rewrite Hpath.
  unfold bind at 1. rewrite navScan_run. fold matching.
  unfold bind at 1, getLeavesOfType. cbn [allLeaves afterActivating].
  change (filter (fun leaf => String.eqb (type (getViewState leaf)) "empty") (allLeaves h))
    with (filter (hasType "empty") (allLeaves h)).
  destruct (filter (hasType "empty") (allLeaves h)) as [| firstEmpty others].
  - rewrite existsb_filter_nil. fold matching.
    destruct matching as [| m ms]; [| reflexivity].
    unfold afterActivating, afterCalls, bind, stopPropagation, record.
    cbn [negb map last allLeaves activeLeaf trace]. now rewrite app_nil_r.
  - apply afterActivating_snoc.
Qed.

(** The listener on a click without modifier on a navigation-file target. *)
Lemma generateClickHandler_navigation event h :
  pureClick event = true ->
  classify (target event) = NavigationFile ->
  generateClickHandler event h = _handleNavigationPanel event (target event) h.
Proof.
  intros Hpure Hnav. apply classify_navigation in Hnav.
  unfold generateClickHandler. now rewrite Hpure, Hnav.
Qed.

(** The listener on a click without modifier on a ribbon or search target. *)
Lemma generateClickHandler_redispatch event h :
  pureClick event = true ->
  classify (target event) = DailyNoteRibbon
  \/ classify (target event) = UniqueNoteRibbon
  \/ classify (target event) = SearchResult ->
  exec (generateClickHandler event) h
  = afterCalls [StopPropagation event;
                DispatchEvent (target event) (metaClick (target event))] h.
Proof.
  intros Hpure Hclass.
  unfold exec, generateClickHandler. rewrite Hpure. cbv zeta. simpl negb. cbv iota.
  unfold classify in Hclass.
  assert (snd (bind (stopPropagation event)
                    (fun _ => dispatchEvent (target event) "click" metaClickInit) h)
          = afterCalls [StopPropagation event;
                        DispatchEvent (target event) (metaClick (target event))] h)
    as Hrun.
  { unfold afterCalls, bind, stopPropagation, dispatchEvent, record, metaClick.
    simpl. now rewrite <- app_assoc. }
  destruct (isNavFile (target event)); [intuition discriminate |].
  destruct (isDailyNoteRibbon (target event)); [exact Hrun |].
  destruct (isUniqueNoteRibbon (target event)); [exact Hrun |].
  destruct (isSearchResult (target event)); [exact Hrun |].
  intuition discriminate.
Qed.

Lemma activations_only (activated : list WorkspaceLeaf) :
  existsb isStopPropagation (map (@SetActiveLeaf OpenViewState) activated) = false
  /\ existsb isNavigation (map (@SetActiveLeaf OpenViewState) activated) = false
  /\ existsb isDispatchEvent (map (@SetActiveLeaf OpenViewState) activated) = false.
Proof. induction activated as [| leaf rest IH]; simpl; auto. Qed.

(** The navigation handler when a "New tab" pane is open. *)
Lemma nav_with_empty_pane_run event (titleEl : Element) (path : string)
      (firstEmpty : WorkspaceLeaf) (others : list WorkspaceLeaf) h :
  pureClick event = true ->
  classify (target event) = NavigationFile ->
  closestWithClass "nav-file-title" (target event) = Some titleEl ->
  getAttribute titleEl "data-path" = Some path ->
  path <> ""%string ->
  filter (hasType "empty") (allLeaves h) = firstEmpty :: others ->
  exec (generateClickHandler event) h
  = afterActivating (filter (displays path) (allLeaves h) ++ [firstEmpty]) h.
Proof.
  intros Hpure Hnav Hclosest Hattr Hpath Hempty.
  unfold exec. rewrite generateClickHandler_navigation by assumption.
  change (snd (_handleNavigationPanel event (target event) h))
    with (exec (_handleNavigationPanel event (target event)) h).
  rewrite (handleNavigationPanel_run event _ titleEl path) by assumption.
  cbv zeta. now rewrite Hempty.
Qed.

(** C2 (as amended). A click without modifier on a navigation-file target
    whose non-empty data-path is exactly the file some open pane displays,
    no pane of type "empty" being open: every pane displaying the path is
    activated, in order; no open-link call is made; and the click's
    propagation is not stopped, so the event goes on to the host's own
    handlers. *)
Theorem nav_match_activates_and_passes_on event (titleEl : Element) (path : string) leaf h :
  pureClick event = true ->
  classify (target event) = NavigationFile ->
  closestWithClass "nav-file-title" (target event) = Some titleEl ->
  getAttribute titleEl "data-path" = Some path ->
  path <> ""%string ->
  In leaf (allLeaves h) ->
  displays path leaf = true ->
  getLeavesOfType "empty" h = ([], h) ->
  let matching := filter (displays path) (allLeaves h) in
  exec (generateClickHandler event) h = afterActivating matching h
  /\ In leaf matching
  /\ trace (exec (generateClickHandler event) h) = trace h ++ map SetActiveLeaf matching
  /\ existsb isStopPropagation (map (@SetActiveLeaf OpenViewState) matching) = false
  /\ existsb isNavigation (map (@SetActiveLeaf OpenViewState) matching) = false.
Proof.
  intros Hpure Hnav Hclosest Hattr Hpath Hin Hshows Hempty matching.
  apply getLeavesOfType_inv in Hempty.
  assert (In leaf matching) as Hmatch by (apply filter_In; auto).
  assert (exec (generateClickHandler event) h = afterActivating matching h) as Hrun.
  { unfold exec. rewrite generateClickHandler_navigation by assumption.
    change (snd (_handleNavigationPanel event (target event) h))
      with (exec (_handleNavigationPanel event (target event)) h).
    rewrite (handleNavigationPanel_run event _ titleEl path) by assumption.
    cbv zeta. rewrite Hempty. fold matching.
    destruct matching; [destruct Hmatch | reflexivity]. }
  split; [exact Hrun |]. split; [exact Hmatch |].
  split; [now rewrite Hrun |].
  split; apply activations_only.
Qed.

(** C6. A click without modifier on a navigation-file target with a
    resolvable path, some pane of type "empty" being open: the first such
    pane is activated last and is the active pane on return; propagation is
    not stopped and no open-link call is made. *)
Theorem nav_empty_pane_reused event (titleEl : Element) (path : string)
        (firstEmpty : WorkspaceLeaf) (others : list WorkspaceLeaf) h :
  pureClick event = true ->
  classify (target event) = NavigationFile ->
  closestWithClass "nav-file-title" (target event) = Some titleEl ->
  getAttribute titleEl "data-path" = Some path ->
  path <> ""%string ->
  getLeavesOfType "empty" h = (firstEmpty :: others, h) ->
  exists calls,
    trace (exec (generateClickHandler event) h) = trace h ++ calls ++ [SetActiveLeaf firstEmpty]
    /\ activeLeaf (exec (generateClickHandler event) h) = Some firstEmpty
    /\ allLeaves (exec (generateClickHandler event) h) = allLeaves h
    /\ existsb isStopPropagation (calls ++ [SetActiveLeaf firstEmpty]) = false
    /\ existsb isNavigation (calls ++ [SetActiveLeaf firstEmpty]) = false.
Proof.
  intros Hpure Hnav Hclosest Hattr Hpath Hempty.
  apply getLeavesOfType_inv in Hempty.
  rewrite (nav_with_empty_pane_run event titleEl path firstEmpty others) by assumption.
  exists (map SetActiveLeaf (filter (displays path) (allLeaves h))).
  unfold afterActivating. cbn [trace activeLeaf allLeaves].
  rewrite !map_app. cbn [map]. rewrite last_last.
  repeat split; rewrite existsb_app, orb_false_iff; split;
    try apply activations_only; reflexivity.
Qed.

(** C10. A click without modifier on a navigation-file target whose path
    an open pane displays while a pane of type "empty" is open: the panes
    displaying the path are activated first and the first empty pane after
    them, so the empty pane is the active one on return, whatever matched
    (a matching pane that is not itself of type "empty" is another pane);
    the click's propagation is not stopped. *)
Theorem nav_empty_pane_overrides_match event (titleEl : Element) (path : string) leaf
        (firstEmpty : WorkspaceLeaf) (others : list WorkspaceLeaf) h :
  pureClick event = true ->
  classify (target event) = NavigationFile ->
  closestWithClass "nav-file-title" (target event) = Some titleEl ->
  getAttribute titleEl "data-path" = Some path ->
  path <> ""%string ->
  In leaf (allLeaves h) ->
  displays path leaf = true ->
  getLeavesOfType "empty" h = (firstEmpty :: others, h) ->
  let matching := filter (displays path) (allLeaves h) in
  let h' := exec (generateClickHandler event) h in
  In leaf matching
  /\ trace h' = trace h ++ map SetActiveLeaf matching ++ [SetActiveLeaf firstEmpty]
  /\ activeLeaf h' = Some firstEmpty
  /\ (hasType "empty" leaf = false -> leaf <> firstEmpty)
  /\ existsb isStopPropagation
       (map (@SetActiveLeaf OpenViewState) matching ++ [SetActiveLeaf firstEmpty]) = false.
Proof.
  intros Hpure Hnav Hclosest Hattr Hpath Hin Hshows Hempty matching h'.
  subst h'. apply getLeavesOfType_inv in Hempty.
  rewrite (nav_with_empty_pane_run event titleEl path firstEmpty others) by assumption.
  fold matching. unfold afterActivating. cbn [trace activeLeaf].
  rewrite !map_app. cbn [map]. rewrite last_last.
  split; [apply filter_In; auto |].
  split; [reflexivity |]. split; [reflexivity |]. split.
  - intros Hnot ->.
    assert (In firstEmpty (filter (hasType "empty") (allLeaves h))) as Hfe
        by (rewrite Hempty; now left).
    apply filter_In in Hfe. destruct Hfe as [_ Hfe]. congruence.
  - rewrite existsb_app, orb_false_iff. split; [apply activations_only | reflexivity].
Qed.

(** C5 (as amended). A click without modifier classified as daily-note
    ribbon, unique-note ribbon or search result: the handler stops the
    original event's propagation once and dispatches one synthesized click
    on the same target, with the meta key on, no other modifier, and the
    bubbling and cancelable flags both on; these are the original event's
    flags whenever the original bubbles and can be cancelled. *)
Theorem ribbon_and_search_clicks_redispatched event h :
  pureClick event = true ->
  classify (target event) = DailyNoteRibbon
  \/ classify (target event) = UniqueNoteRibbon
  \/ classify (target event) = SearchResult ->
  let synthesized := metaClick (target event) in
  exec (generateClickHandler event) h
  = afterCalls [StopPropagation event; DispatchEvent (target event) synthesized] h
  /\ target synthesized = target event
  /\ metaKey synthesized = true
  /\ shiftKey synthesized = false /\ ctrlKey synthesized = false /\ altKey synthesized = false
  /\ bubbles synthesized = true
  /\ cancelable synthesized = true
  /\ (bubbles event = true -> cancelable event = true ->
      redispatched_with_original_flags event h).
Proof.
  intros Hpure Hclass synthesized.
  pose proof (generateClickHandler_redispatch event h Hpure Hclass) as Hrun.
  split; [exact Hrun |]. repeat (split; [reflexivity |]).
  intros Hb Hc. exists synthesized. rewrite Hrun.
  repeat split; simpl; congruence.
Qed.

(** C8. A click with shift, ctrl, meta or alt held: the listener returns at
    once and leaves the host as it was (nothing stopped, activated, opened
    or dispatched).  The click the handlers synthesize has the meta key on,
    so the listener, entered again for it, does nothing either. *)
Theorem modifier_clicks_untouched event h :
  modifierHeld event ->
  generateClickHandler event h = (tt, h)
  /\ forall (el : Element) (h' : Host OpenViewState),
      generateClickHandler (metaClick el) h' = (tt, h').
Proof.
  intros Hmod. apply pureClick_false_iff in Hmod.
  split.
  - unfold generateClickHandler. now rewrite Hmod.
  - intros el h'. reflexivity.
Qed.

(** C9. The degenerate inputs are silent no-ops.  Without an original
    primitive the interceptor returns having made no open-link call: it has
    at most activated panes.  A click without modifier on a navigation-file
    target with no ancestor carrying the file-tree-row class, or whose row
    has no data-path attribute (or an empty one), leaves the host as it was:
    nothing stopped, activated or opened. *)
Theorem degenerate_inputs_are_no_ops :
  (forall linkText sourcePath requestedNewPane (openViewOptions : JS.maybe OpenViewState) h,
      exists activated,
        openLinkText None linkText sourcePath requestedNewPane openViewOptions h
        = (tt, afterActivating activated h)
        /\ existsb isNavigation (map (@SetActiveLeaf OpenViewState) activated) = false)
  /\ (forall event h,
         pureClick event = true ->
         classify (target event) = NavigationFile ->
         closestWithClass "nav-file-title" (target event) = None ->
         generateClickHandler event h = (tt, h))
  /\ (forall event (titleEl : Element) h,
         pureClick event = true ->
         classify (target event) = NavigationFile ->
         closestWithClass "nav-file-title" (target event) = Some titleEl ->
         getAttribute titleEl "data-path" = None
         \/ getAttribute titleEl "data-path" = Some ""%string ->
         generateClickHandler event h = (tt, h)).
Proof.
  split; [| split].
  - intros linkText sourcePath requestedNewPane openViewOptions h.
    destruct (isSameFileOf (fileNameOf linkText) sourcePath) eqn:Hsame.
    + exists []. split; [| reflexivity].
      unfold openLinkText, bind. rewrite Hsame. simpl.
      now rewrite afterActivating_nil.
    + exists (filter (leafMatches (fileNameOf linkText)) (allLeaves h)).
      split; [| apply activations_only].
      now rewrite (openLinkText_other_file None) by exact Hsame.
  - intros event h Hpure Hnav Hclosest.
    rewrite generateClickHandler_navigation by assumption.
    unfold _handleNavigationPanel. now rewrite Hclosest.
  - intros event titleEl h Hpure Hnav Hclosest Hattr.
    rewrite generateClickHandler_navigation by assumption.
    unfold _handleNavigationPanel. rewrite Hclosest.
    destruct Hattr as [-> | ->]; reflexivity.
Qed.

End ClickListener.

(** ** The theorems at work on concrete clicks and links *)

Module Runs.

Import Scenario.

(** The link "B" from "A.md" with A.md and B.md open: the pane of B.md is
    activated and the primitive is told not to open a new pane. *)
Lemma link_to_open_note :
  (forall leaf, In leaf [leafB] <-> In leaf (allLeaves hostAB) /\ pane_matches "B" leaf)
  /\ (exists flag,
         openLinkText (Some hostOpenLinkText) "B" "A.md" None None hostAB
         = hostOpenLinkText "B" "A.md" (Some flag) None (afterActivating [leafB] hostAB))
  /\ trace (afterActivating [leafB] hostAB) = trace hostAB ++ map SetActiveLeaf [leafB]
  /\ (forall earlier lastMatch,
         [leafB] = earlier ++ [lastMatch] ->
         activeLeaf (afterActivating [leafB] hostAB) = Some lastMatch)
  /\ ([leafB] = [] -> afterActivating [leafB] hostAB = hostAB).
Proof.
  apply (scan_activates_matching_panes hostOpenLinkText "B" "A.md" None None hostAB).
  reflexivity.
Defined.

(** A click on the title of Notes/X.md with that note open. *)
Lemma click_on_open_note :
  exec (generateClickHandler (click titleX)) hostAX = afterActivating [leafX] hostAX
  /\ In leafX [leafX]
  /\ trace (exec (generateClickHandler (click titleX)) hostAX)
     = trace hostAX ++ map SetActiveLeaf [leafX]
  /\ existsb isStopPropagation (map (@SetActiveLeaf unit) [leafX]) = false
  /\ existsb isNavigation (map (@SetActiveLeaf unit) [leafX]) = false.
Proof.
  apply (nav_match_activates_and_passes_on
           (click titleX) rowX "Notes/X.md" leafX hostAX);
    try reflexivity; [discriminate | simpl; auto].
Defined.

(** C2, as worded, fails on that click: the pane is activated and nothing
    is opened, but the propagation is not stopped. *)
Lemma click_on_open_note_not_suppressed :
  pureClick (click titleX) = true
  /\ classify (target (click titleX)) = NavigationFile
  /\ closestWithClass "nav-file-title" (target (click titleX)) = Some rowX
  /\ getAttribute rowX "data-path" = Some "Notes/X.md"%string
  /\ In leafX (allLeaves hostAX)
  /\ displays "Notes/X.md" leafX = true
  /\ getLeavesOfType "empty" hostAX = ([], hostAX)
  /\ ~ nav_match_suppressed (click titleX) leafX hostAX.
Proof.
  repeat (split; [first [reflexivity | simpl; auto] |]).
  intros [calls [Htrace [_ [Hstop _]]]].
  vm_compute in Htrace. subst calls. discriminate Hstop.
Qed.

(** A click on the title of Notes/X.md with that note and a "New tab" pane
    open. *)
Lemma click_with_new_tab_open :
  exists calls,
    trace (exec (generateClickHandler (click titleX)) hostAXNew)
    = trace hostAXNew ++ calls ++ [SetActiveLeaf leafNew]
    /\ activeLeaf (exec (generateClickHandler (click titleX)) hostAXNew) = Some leafNew
    /\ allLeaves (exec (generateClickHandler (click titleX)) hostAXNew) = allLeaves hostAXNew
    /\ existsb isStopPropagation (calls ++ [SetActiveLeaf leafNew]) = false
    /\ existsb isNavigation (calls ++ [SetActiveLeaf leafNew]) = false.
Proof.
  apply (nav_empty_pane_reused (click titleX) rowX "Notes/X.md" leafNew [] hostAXNew);
    try reflexivity; discriminate.
Defined.

Lemma click_match_then_new_tab :
  In leafX [leafX]
  /\ trace (exec (generateClickHandler (click titleX)) hostAXNew)
     = trace hostAXNew ++ map SetActiveLeaf [leafX] ++ [SetActiveLeaf leafNew]
  /\ activeLeaf (exec (generateClickHandler (click titleX)) hostAXNew) = Some leafNew
  /\ (hasType "empty" leafX = false -> leafX <> leafNew)
  /\ existsb isStopPropagation
       (map (@SetActiveLeaf unit) [leafX] ++ [SetActiveLeaf leafNew]) = false.
Proof.
  apply (nav_empty_pane_overrides_match
           (click titleX) rowX "Notes/X.md" leafX leafNew [] hostAXNew);
    try reflexivity; [discriminate | simpl; auto].
Defined.

(** A click on a search result. *)
Lemma click_on_search_result :
  exec (generateClickHandler (click searchMatch)) hostAB
  = afterCalls [StopPropagation (click searchMatch);
                DispatchEvent searchMatch (metaClick searchMatch)] hostAB
  /\ target (metaClick searchMatch) = searchMatch
  /\ metaKey (metaClick searchMatch) = true
  /\ shiftKey (metaClick searchMatch) = false
  /\ ctrlKey (metaClick searchMatch) = false
  /\ altKey (metaClick searchMatch) = false
  /\ bubbles (metaClick searchMatch) = true
  /\ cancelable (metaClick searchMatch) = true
  /\ (bubbles (click searchMatch) = true -> cancelable (click searchMatch) = true ->
      redispatched_with_original_flags (click searchMatch) hostAB).
Proof.
  apply (ribbon_and_search_clicks_redispatched (click searchMatch) hostAB).
  - reflexivity.
  - right. right. reflexivity.
Defined.

(** C5, as worded, fails on a scripted click, which does not bubble: the
    synthesized click does. *)
Lemma scripted_click_flags_not_kept :
  pureClick (scriptedClick searchMatch) = true
  /\ classify (target (scriptedClick searchMatch)) = SearchResult
  /\ ~ redispatched_with_original_flags (scriptedClick searchMatch) hostAB.
Proof.
  split; [reflexivity |]. split; [reflexivity |].
  intros [synthesized [Htrace [_ [Hbubbles _]]]].
  vm_compute in Htrace. injection Htrace as <-. discriminate Hbubbles.
Qed.

(** A control-click on a file-tree title. *)
Lemma ctrl_click_passes :
  generateClickHandler (ctrlClick titleX) hostAB = (tt, hostAB)
  /\ forall (el : Element) (h' : Host unit),
      generateClickHandler (metaClick el) h' = (tt, h').
Proof.
  apply (modifier_clicks_untouched (ctrlClick titleX) hostAB).
  right. left. reflexivity.
Defined.

(** The three rows of the decision table, on the two open notes: a heading
    link inside A.md with the caller asking for a new pane, a link to the
    open B.md, and a link to C, which no pane shows. *)
Lemma link_flag_rows :
  openLinkText (Some hostOpenLinkText) "A#Heading" "A.md" (Some true) None hostAB
  = hostOpenLinkText "A#Heading" "A.md" (Some true) None hostAB
  /\ openLinkText (Some hostOpenLinkText) "B" "A.md" None None hostAB
     = hostOpenLinkText "B" "A.md" (Some false) None (afterActivating [leafB] hostAB)
  /\ openLinkText (Some hostOpenLinkText) "C" "A.md" None None hostAB
     = hostOpenLinkText "C" "A.md" (Some true) None hostAB.
Proof.
  split; [| split].
  - apply (proj1 (effective_new_pane_flag
                    hostOpenLinkText "A#Heading" "A.md" (Some true) None hostAB)).
    reflexivity.
  - apply (proj1 (proj2 (effective_new_pane_flag
                           hostOpenLinkText "B" "A.md" None None hostAB))).
    + reflexivity.
    + exists leafB. split; [simpl; auto | reflexivity].
  - apply (proj2 (proj2 (effective_new_pane_flag
                           hostOpenLinkText "C" "A.md" None None hostAB))).
    + reflexivity.
    + intros [leaf [[<- | [<- | []]] Hmatch]]; discriminate Hmatch.
Defined.

(** Clicks on a title outside any row and on a row without a path. *)
Lemma clicks_without_path :
  generateClickHandler (click strayTitle) hostAB = (tt, hostAB)
  /\ generateClickHandler (click rowNoPath) hostAB = (tt, hostAB).
Proof.
  split.
  - apply (proj1 (proj2 (@degenerate_inputs_are_no_ops unit))); reflexivity.
  - apply (proj2 (proj2 (@degenerate_inputs_are_no_ops unit)) (click rowNoPath) rowNoPath);
      try reflexivity.
    left. reflexivity.
Defined.

(** The wrapper on the call the navigation handler makes,
    [openLinkText(path, path, true)]: a pane of another type whose file path
    ends with the path counts as a match, and the original primitive is
    then told not to open a new pane. *)
Lemma wrapper_on_navigation_call :
  openLinkText (Some hostOpenLinkText) "pic.png" "pic.png" (Some true) None hostAPicture
  = hostOpenLinkText "pic.png" "pic.png" (Some false) None
                     (afterActivating [leafPicture] hostAPicture).
Proof. reflexivity. Qed.

End Runs.

(** ** Further facts about link texts *)

Module LinkTextFacts.

Lemma before_first_without (sep : ascii) (s : string) :
  JS.occurs sep s = false -> JS.before_first sep s = s.
Proof.
  induction s as [| c rest IH]; simpl; [reflexivity |].
  intros Hfree. apply orb_false_iff in Hfree. destruct Hfree as [Hc Hrest].
  rewrite Hc. f_equal. now apply IH.
Qed.

Lemma before_first_append (sep : ascii) (a rest : string) :
  JS.occurs sep a = false ->
  JS.before_first sep (a ++ String sep rest)%string = a.
Proof.
  induction a as [| c a IH]; simpl.
  - intros _. now rewrite Ascii.eqb_refl.
  - intros Hfree. apply orb_false_iff in Hfree. destruct Hfree as [Hc Ha].
    rewrite Hc. f_equal. now apply IH.
Qed.

Lemma append_inv_head (a b c : string) :
  (a ++ b)%string = (a ++ c)%string -> b = c.
Proof.
  induction a as [| x a IH]; simpl; intros Heq; [exact Heq |].
  injection Heq as Heq. now apply IH.
Qed.

Lemma append_nonempty_neq (a b : string) :
  b <> ""%string -> (a ++ b)%string <> a.
Proof.
  intros Hb Heq. apply (f_equal String.length) in Heq.
  rewrite JSFacts.length_app in Heq.
  destruct b; [now apply Hb | simpl in Heq; lia].
Qed.

Lemma prepend_nonempty_neq (a b : string) :
  a <> ""%string -> (a ++ b)%string <> b.
Proof.
  intros Ha Heq. apply (f_equal String.length) in Heq.
  rewrite JSFacts.length_app in Heq.
  destruct a; [now apply Ha | simpl in Heq; lia].
Qed.

(** A string does not end with itself followed by ".md". *)
Lemma endsWith_itself_md (s : string) : JS.endsWith s (s ++ ".md")%string = false.
Proof.
  unfold JS.endsWith. rewrite JSFacts.length_app. simpl String.length.
  replace (Nat.leb (String.length s + 3) (String.length s)) with false; [reflexivity |].
  symmetry. apply Nat.leb_gt. lia.
Qed.

(** The part of a string before its first "#", followed by ".md", is never
    the string. *)
Lemma before_hash_md_neq (s : string) :
  (JS.before_first "#"%char s ++ ".md")%string <> s.
Proof.
  destruct (JSFacts.before_first_cut "#"%char s) as [Hwhole | [rest Hcut]].
  - rewrite <- Hwhole. apply append_nonempty_neq. discriminate.
  - intros Heq. rewrite Hcut in Heq at 2.
    apply append_inv_head in Heq. discriminate Heq.
Qed.

End LinkTextFacts.

(** ** More on the link-resolution interceptor *)

Section InterceptorEdges.

Context {OpenViewState : Type}.

Implicit Types (h : Host OpenViewState) (old : OpenLinkTextFn OpenViewState).
Implicit Types (requestedNewPane : JS.maybe bool) (openViewOptions : JS.maybe OpenViewState).
Implicit Types (leaf : WorkspaceLeaf).

Lemma last_map_Some_in {A : Type} (l : list A) (d : option A) :
  l <> [] -> exists x, In x l /\ last (map Some l) d = Some x.
Proof.
  induction l as [| x l IH]; intros Hne; [now destruct Hne |].
  destruct l as [| y l].
  - exists x. split; [now left | reflexivity].
  - destruct IH as [z [Hin Hlast]]; [discriminate |].
    exists z. split; [now right | exact Hlast].
Qed.

(** Activating open leaves keeps the leaves and keeps the active leaf among
    them. *)
Lemma afterActivating_frame (activated : list WorkspaceLeaf) h :
  allOpen activated h ->
  allLeaves (afterActivating activated h) = allLeaves h
  /\ (activeLeafOpen h -> activeLeafOpen (afterActivating activated h)).
Proof.
  intros Hopen. split; [reflexivity |].
  unfold activeLeafOpen, afterActivating. cbn [activeLeaf allLeaves].
  destruct activated as [| x rest].
  - simpl. auto.
  - intros _. destruct (last_map_Some_in (x :: rest) (activeLeaf h)) as [z [Hin ->]];
      [discriminate |]. now apply Hopen.
Qed.

Lemma filter_allOpen (p : WorkspaceLeaf -> bool) h : allOpen (filter p (allLeaves h)) h.
Proof. intros leaf Hin. apply filter_In in Hin. apply Hin. Qed.

(** X1. Whatever the link, the wrapper calls the original primitive with
    the link text, the source path and the view options it was given and
    with a definite boolean as flag; before that call it has done nothing
    but activate open leaves: the list of leaves is as it was, and the
    active leaf, if it was an open leaf, still is one. *)
Theorem wrapper_always_delegates old linkText sourcePath requestedNewPane openViewOptions h :
  exists flag activated,
    openLinkText (Some old) linkText sourcePath requestedNewPane openViewOptions h
    = old linkText sourcePath (Some flag) openViewOptions (afterActivating activated h)
    /\ allOpen activated h
    /\ allLeaves (afterActivating activated h) = allLeaves h
    /\ trace (afterActivating activated h) = trace h ++ map SetActiveLeaf activated
    /\ (activeLeafOpen h -> activeLeafOpen (afterActivating activated h)).
Proof.
  destruct (isSameFileOf (fileNameOf linkText) sourcePath) eqn:Hsame.
  - exists (match requestedNewPane with Some b => b | None => false end), [].
    rewrite afterActivating_nil.
    split; [now apply openLinkText_same_file |].
    split; [intros leaf [] |]. split; [reflexivity |].
    split; [simpl; now rewrite app_nil_r | auto].
  - pose proof (openLinkText_other_file (Some old) linkText sourcePath
                  requestedNewPane openViewOptions h Hsame) as Hrun.
    cbv zeta in Hrun. do 2 eexists. split; [exact Hrun |].
    split; [apply filter_allOpen |]. split; [reflexivity |]. split; [reflexivity |].
    apply afterActivating_frame, filter_allOpen.
Qed.

(** X2. A link to the note itself or to a heading of it, from a note at
    the root of the vault ([name] or [name#fragment] from [name.md]): the
    same-file test holds, nothing is scanned, and the original primitive
    receives the caller's flag (false when absent). *)
Theorem heading_link_in_root_note old (name fragment : string)
        requestedNewPane openViewOptions h :
  JS.occurs "#"%char name = false ->
  let sourcePath := (name ++ ".md")%string in
  let headingLink := (name ++ "#" ++ fragment)%string in
  isSameFileOf (fileNameOf name) sourcePath = true
  /\ isSameFileOf (fileNameOf headingLink) sourcePath = true
  /\ openLinkText (Some old) headingLink sourcePath requestedNewPane openViewOptions h
     = old headingLink sourcePath
           (Some (match requestedNewPane with Some b => b | None => false end))
           openViewOptions h.
Proof.
  intros Hfree sourcePath headingLink.
  assert (fileNameOf name = Some name) as Hname.
  { rewrite fileNameOf_before_first. f_equal.
    now apply LinkTextFacts.before_first_without. }
  assert (fileNameOf headingLink = Some name) as Hheading.
  { rewrite fileNameOf_before_first. f_equal.
    now apply LinkTextFacts.before_first_append. }
  assert (isSameFileOf (Some name) sourcePath = true) as Hsame
      by (apply isSameFileOf_iff; now right).
  split; [now rewrite Hname |]. split; [now rewrite Hheading |].
  apply openLinkText_same_file. now rewrite Hheading.
Qed.

(** X3. The same heading link from a note kept in a folder: the source
    path holds the folder, so the same-file test fails; the pane of the
    note itself, when open as markdown, matches the scan, and the original
    primitive receives false whatever flag the caller gave. *)
Theorem heading_link_in_folder_note old (folder name fragment : string)
        requestedNewPane openViewOptions leaf h :
  JS.occurs "#"%char name = false ->
  name <> ""%string ->
  folder <> ""%string ->
  In leaf (allLeaves h) ->
  type (getViewState leaf) = "markdown"%string ->
  state_file (getViewState leaf) = Some (folder ++ name ++ ".md")%string ->
  let sourcePath := (folder ++ name ++ ".md")%string in
  let headingLink := (name ++ "#" ++ fragment)%string in
  let matching := filter (leafMatches (Some name)) (allLeaves h) in
  isSameFileOf (fileNameOf headingLink) sourcePath = false
  /\ In leaf matching
  /\ openLinkText (Some old) headingLink sourcePath requestedNewPane openViewOptions h
     = old headingLink sourcePath (Some false) openViewOptions
           (afterActivating matching h).
Proof.
  intros Hfree Hname Hfolder Hin Htype Hfile sourcePath headingLink matching.
  assert (fileNameOf headingLink = Some name) as Hheading.
  { rewrite fileNameOf_before_first. f_equal.
    now apply LinkTextFacts.before_first_append. }
  assert (isSameFileOf (fileNameOf headingLink) sourcePath = false) as Hother.
  { rewrite Hheading. apply not_true_is_false. intros Hsame.
    apply isSameFileOf_iff in Hsame. destruct Hsame as [Hempty | Heq]; [now apply Hname |].
    symmetry in Heq. now apply LinkTextFacts.prepend_nonempty_neq in Heq. }
  assert (In leaf matching) as Hmatch.
  { apply filter_In. split; [exact Hin |]. apply leafMatches_spec. left.
    split; [exact Htype |]. exists (folder ++ name ++ ".md")%string.
    split; [exact Hfile |]. now exists folder. }
  split; [exact Hother |]. split; [exact Hmatch |].
  rewrite (openLinkText_other_file (Some old)) by exact Hother.
  cbv zeta. rewrite Hheading. fold matching.
  destruct matching; [destruct Hmatch | reflexivity].
Qed.

(** X4. On a link to another file, a markdown pane displaying exactly the
    link's file-name component (as for a link written with its ".md"
    extension) is not among the panes the scan activates, because the scan
    looks for the component followed by ".md"; so when no other open pane
    matches, nothing is activated and the original primitive is told to
    open a new pane although the file is open. *)
Theorem link_with_extension_misses_open_note old (linkText sourcePath fileName : string)
        requestedNewPane openViewOptions h :
  fileNameOf linkText = Some fileName ->
  isSameFileOf (fileNameOf linkText) sourcePath = false ->
  (forall leaf,
      hasType "markdown" leaf = true -> displays fileName leaf = true ->
      ~ In leaf (filter (leafMatches (fileNameOf linkText)) (allLeaves h)))
  /\ ((forall leaf,
          In leaf (allLeaves h) ->
          (hasType "markdown" leaf = true /\ displays fileName leaf = true)
          \/ leafMatches (Some fileName) leaf = false) ->
      openLinkText (Some old) linkText sourcePath requestedNewPane openViewOptions h
      = old linkText sourcePath (Some true) openViewOptions h).
Proof.
  intros Hname Hother.
  assert (forall leaf,
             hasType "markdown" leaf = true -> displays fileName leaf = true ->
             leafMatches (Some fileName) leaf = false) as Hmiss.
  { intros leaf Htype Hshows.
    unfold hasType in Htype. unfold displays, JS.strictEq in Hshows.
    unfold leafMatches, matchesMarkdownFile, matchesNonMarkdownFile.
    rewrite Htype. simpl negb. rewrite andb_false_l, orb_false_r, andb_true_l.
    destruct (state_file (getViewState leaf)) as [path |]; [| discriminate].
    apply String.eqb_eq in Hshows. subst path. simpl.
    apply LinkTextFacts.endsWith_itself_md. }
  split.
  - intros leaf Htype Hshows Hin. rewrite Hname in Hin.
    apply filter_In in Hin. destruct Hin as [_ Hmatch].
    rewrite (Hmiss leaf Htype Hshows) in Hmatch. discriminate Hmatch.
  - intros Hleaves.
    rewrite (openLinkText_other_file (Some old)) by exact Hother. cbv zeta.
    assert (filter (leafMatches (fileNameOf linkText)) (allLeaves h) = []) as ->.
    { apply filter_nil_iff. intros leaf Hin. rewrite Hname.
      destruct (Hleaves leaf Hin) as [[Htype Hshows] | Hno]; [now apply Hmiss | exact Hno]. }
    now rewrite afterActivating_nil.
Qed.

(** X5. When the link text is also given as the source path, as the
    navigation handler does with a file path, the same-file test holds only
    for the empty string and for a string that starts with "#". *)
Theorem same_string_same_file (path : string) :
  isSameFileOf (fileNameOf path) path = true
  <-> path = ""%string \/ exists rest, path = ("#" ++ rest)%string.
Proof.
  rewrite fileNameOf_before_first, isSameFileOf_iff.
  rewrite JSFacts.before_first_empty_iff. split.
  - intros [Hempty | Heq]; [exact Hempty |].
    now apply LinkTextFacts.before_hash_md_neq in Heq.
  - intros Hform. now left.
Qed.

End InterceptorEdges.

(** ** More on the click listener *)

Section ListenerEdges.

Context {OpenViewState : Type}.

Implicit Types (h : Host OpenViewState) (event : MouseEvent) (leaf : WorkspaceLeaf).
Implicit Types (old : OpenLinkTextFn OpenViewState).

Lemma contains_In (tokens : list string) (token : string) :
  contains tokens token = true <-> In token tokens.
Proof.
  induction tokens as [| t rest IH]; simpl; [split; [discriminate | intros []] |].
  rewrite orb_true_iff, String.eqb_eq, IH. reflexivity.
Qed.

Lemma classify_unhandled (el : Element) :
  classify el = Unhandled ->
  isNavFile el = false /\ isDailyNoteRibbon el = false
  /\ isUniqueNoteRibbon el = false /\ isSearchResult el = false.
Proof.
  unfold classify.
  destruct (isNavFile el), (isDailyNoteRibbon el), (isUniqueNoteRibbon el),
    (isSearchResult el); intros H; try discriminate H; auto.
Qed.

(** What the navigation handler does, for any workspace method, when no
    pane displays the path and no empty pane is open. *)
Lemma handleNavigationPanelWith_run (method : OpenLinkTextFn OpenViewState)
      event (el titleEl : Element) (path : string) h :
  closestWithClass "nav-file-title" el = Some titleEl ->
  getAttribute titleEl "data-path" = Some path ->
  path <> ""%string ->
  filter (displays path) (allLeaves h) = [] ->
  filter (hasType "empty") (allLeaves h) = [] ->
  handleNavigationPanelWith method event el h
  = method path path (Some true) None (afterCalls [StopPropagation event] h).
Proof.
  intros Hclosest Hattr Hpath Hnone Hempty.
  unfold handleNavigationPanelWith. rewrite Hclosest, Hattr.
  apply String.eqb_neq in Hpath. rewrite Hpath.
  unfold bind at 1. rewrite navScan_run, existsb_filter_nil, Hnone, afterActivating_nil.
  unfold bind at 1, getLeavesOfType.
  change (filter (fun leaf => String.eqb (type (getViewState leaf)) "empty") (allLeaves h))
    with (filter (hasType "empty") (allLeaves h)).
  rewrite Hempty. reflexivity.
Qed.

(** The listener of the loaded plugin is the listener over the wrapper
    around the host's primitive. *)
Lemma generateClickHandler_loaded event :
  generateClickHandlerWith (openLinkText (Some hostOpenLinkText)) event
  = @generateClickHandler OpenViewState event.
Proof. reflexivity. Qed.

(** The wrapper called with newLeaf = true: the original receives true
    exactly when the wrapper activated nothing. *)
Lemma openLinkText_forced old (linkText sourcePath : string)
      (openViewOptions : JS.maybe OpenViewState) h :
  exists activated,
    allOpen activated h
    /\ openLinkText (Some old) linkText sourcePath (Some true) openViewOptions h
       = old linkText sourcePath
             (Some (match activated with [] => true | _ :: _ => false end))
             openViewOptions (afterActivating activated h).
Proof.
  destruct (isSameFileOf (fileNameOf linkText) sourcePath) eqn:Hsame.
  - exists []. split; [intros leaf [] |].
    rewrite afterActivating_nil. now apply openLinkText_same_file.
  - exists (filter (leafMatches (fileNameOf linkText)) (allLeaves h)).
    split; [apply filter_allOpen |].
    now rewrite (openLinkText_other_file (Some old)) by exact Hsame.
Qed.

(** The navigation handler over any workspace method, in all its cases:
    it returns after activating open leaves, or it stops the event and
    ends with the method called on the path. *)
Lemma handleNavigationPanelWith_cases (method : OpenLinkTextFn OpenViewState)
      event (el : Element) h :
  (exists activated,
      allOpen activated h
      /\ handleNavigationPanelWith method event el h = (tt, afterActivating activated h))
  \/ (exists path,
         handleNavigationPanelWith method event el h
         = method path path (Some true) None (afterCalls [StopPropagation event] h)).
Proof.
  assert (exists activated,
             allOpen activated h /\ (tt, h) = (tt, afterActivating activated h))
    as Hnothing.
  { exists []. rewrite afterActivating_nil. split; [intros leaf [] | reflexivity]. }
  destruct (closestWithClass "nav-file-title" el) as [titleEl |] eqn:Hclosest;
    [| left; unfold handleNavigationPanelWith; rewrite Hclosest; exact Hnothing].
  destruct (getAttribute titleEl "data-path") as [path |] eqn:Hattr;
    [| left; unfold handleNavigationPanelWith; rewrite Hclosest, Hattr; exact Hnothing].
  destruct (String.eqb path "") eqn:Hpath;
    [left; unfold handleNavigationPanelWith; rewrite Hclosest, Hattr, Hpath;
     exact Hnothing |].
  destruct (filter (hasType "empty") (allLeaves h)) as [| firstEmpty others] eqn:Hempty;
    [destruct (filter (displays path) (allLeaves h)) as [| m ms] eqn:Hmatching |].
  - right. exists path. apply String.eqb_neq in Hpath.
    now apply (handleNavigationPanelWith_run method event el titleEl path).
  - left. exists (m :: ms). split; [rewrite <- Hmatching; apply filter_allOpen |].
    unfold handleNavigationPanelWith. rewrite Hclosest, Hattr, Hpath.
    unfold bind at 1. rewrite navScan_run, existsb_filter_nil, Hmatching.
    unfold bind at 1, getLeavesOfType. cbn [allLeaves afterActivating].
    change (filter (fun leaf => String.eqb (type (getViewState leaf)) "empty") (allLeaves h))
      with (filter (hasType "empty") (allLeaves h)).
    now rewrite Hempty.
  - left. exists (filter (displays path) (allLeaves h) ++ [firstEmpty]). split.
    + intros leaf Hin. apply in_app_or in Hin. destruct Hin as [Hin | [<- | []]].
      * now apply filter_allOpen in Hin.
      * assert (In firstEmpty (filter (hasType "empty") (allLeaves h))) as Hfe
            by (rewrite Hempty; now left).
        now apply filter_allOpen in Hfe.
    + unfold handleNavigationPanelWith. rewrite Hclosest, Hattr, Hpath.
      unfold bind at 1. rewrite navScan_run.
      unfold bind at 1, getLeavesOfType. cbn [allLeaves afterActivating].
      change (filter (fun leaf => String.eqb (type (getViewState leaf)) "empty") (allLeaves h))
        with (filter (hasType "empty") (allLeaves h)).
      rewrite Hempty, <- afterActivating_snoc. reflexivity.
Qed.

(** The listener over any workspace method, in all its cases. *)
Lemma listener_with_cases (method : OpenLinkTextFn OpenViewState) event h :
  (exists activated,
      allOpen activated h
      /\ generateClickHandlerWith method event h = (tt, afterActivating activated h))
  \/ (exists path,
         generateClickHandlerWith method event h
         = method path path (Some true) None (afterCalls [StopPropagation event] h))
  \/ (classify (target event) <> NavigationFile
      /\ generateClickHandlerWith method event h
         = (tt, afterCalls [StopPropagation event;
                            DispatchEvent (target event) (metaClick (target event))] h)).
Proof.
  assert (exists activated,
             allOpen activated h /\ (tt, h) = (tt, afterActivating activated h))
    as Hnothing.
  { exists []. rewrite afterActivating_nil. split; [intros leaf [] | reflexivity]. }
  assert (bind (stopPropagation event)
               (fun _ => dispatchEvent (target event) "click" metaClickInit) h
          = (tt, afterCalls [StopPropagation event;
                             DispatchEvent (target event) (metaClick (target event))] h))
    as Hdispatch.
  { unfold afterCalls, bind, stopPropagation, dispatchEvent, record, metaClick.
    simpl. now rewrite <- app_assoc. }
  unfold generateClickHandlerWith.
  destruct (pureClick event); [| left; exact Hnothing].
  cbv zeta. simpl negb. cbv iota.
  destruct (isNavFile (target event)) eqn:Hnav.
  - destruct (handleNavigationPanelWith_cases method event (target event) h)
      as [Hact | Hcall]; [left; exact Hact | right; left; exact Hcall].
  - assert (classify (target event) <> NavigationFile) as Hother.
    { intros Hclass. apply classify_navigation in Hclass. congruence. }
    destruct (isDailyNoteRibbon (target event)); [right; right; split; assumption |].
    destruct (isUniqueNoteRibbon (target event)); [right; right; split; assumption |].
    destruct (isSearchResult (target event)); [right; right; split; assumption |].
    left. exact Hnothing.
Qed.

(** X6. A click without modifier on a target that is no file-tree title,
    no daily-note or unique-note ribbon action and carries no search-result
    class: the listener returns and the host is as it was. *)
Theorem unhandled_click_passes event h :
  pureClick event = true ->
  classify (target event) = Unhandled ->
  generateClickHandler event h = (tt, h).
Proof.
  intros Hpure Hclass. apply classify_unhandled in Hclass.
  destruct Hclass as [Hn [Hd [Hu Hs]]].
  unfold generateClickHandler. now rewrite Hpure, Hn, Hd, Hu, Hs.
Qed.

(** X7. With the wrapper installed, whatever the original primitive, the
    click and the host, the listener does one of three things: it activates
    open leaves and returns; or it stops the event's propagation, the
    wrapper activates open leaves, and the run ends with the original
    primitive called once, on the path as link text and as source path,
    with the flag true exactly when the wrapper activated nothing; or it
    stops the event's propagation, dispatches one synthesized meta click on
    the event's target and returns. *)
Theorem listener_outcomes old event h :
  let listener := generateClickHandlerWith (openLinkText (Some old)) in
  (exists activated,
      allOpen activated h
      /\ listener event h = (tt, afterActivating activated h))
  \/ (exists path activated,
         allOpen activated h
         /\ listener event h
            = old path path
                  (Some (match activated with [] => true | _ :: _ => false end)) None
                  (afterActivating activated (afterCalls [StopPropagation event] h)))
  \/ listener event h
     = (tt, afterCalls [StopPropagation event;
                        DispatchEvent (target event) (metaClick (target event))] h).
Proof.
  intros listener. subst listener.
  destruct (listener_with_cases (openLinkText (Some old)) event h)
    as [Hact | [[path Hcall] | [_ Hdispatch]]].
  - left. exact Hact.
  - right. left. exists path.
    destruct (openLinkText_forced old path path None
                (afterCalls [StopPropagation event] h)) as [activated [Hopen Hrun]].
    exists activated. split; [exact Hopen |]. now rewrite Hcall.
  - right. right. exact Hdispatch.
Qed.

(** X8. With the wrapper installed, the listener and the wrapper only ever
    activate open leaves: if the active leaf was an open leaf (or there was
    none), this still holds of the host at the point where control leaves
    the plugin, be it the listener's return after its activations, the call
    of the original primitive, or the dispatch of the synthesized click. *)
Theorem listener_activates_open_leaves old event h :
  activeLeafOpen h ->
  let listener := generateClickHandlerWith (openLinkText (Some old)) in
  exists h',
    activeLeafOpen h'
    /\ ((exists activated, h' = afterActivating activated h /\ listener event h = (tt, h'))
        \/ (exists path flag, listener event h = old path path (Some flag) None h')
        \/ listener event h = dispatchEvent (target event) "click" metaClickInit h').
Proof.
  intros Hbefore listener. subst listener.
  destruct (listener_with_cases (openLinkText (Some old)) event h)
    as [[activated [Hopen Hrun]] | [[path Hcall] | [_ Hdispatch]]].
  - exists (afterActivating activated h).
    split; [now apply afterActivating_frame |]. left. now exists activated.
  - destruct (openLinkText_forced old path path None
                (afterCalls [StopPropagation event] h)) as [activated [Hopen Hrun]].
    exists (afterActivating activated (afterCalls [StopPropagation event] h)).
    split; [apply afterActivating_frame; [exact Hopen | exact Hbefore] |].
    right. left. exists path. eexists. rewrite Hcall. exact Hrun.
  - exists (afterCalls [StopPropagation event] h).
    split; [exact Hbefore |]. right. right. rewrite Hdispatch.
    unfold dispatchEvent, record, afterCalls, metaClick. simpl.
    now rewrite <- app_assoc.
Qed.

(** X9. The file-tree test comes first: a click on a target carrying a
    file-tree title class is handled as a navigation click even when the
    target also carries a search-result class or a ribbon label, and the
    listener dispatches no event for it. *)
Theorem nav_title_never_redispatched event h :
  isNavFile (target event) = true ->
  exists calls,
    trace (exec (generateClickHandler event) h) = trace h ++ calls
    /\ existsb isDispatchEvent calls = false.
Proof.
  intros Hnav. apply classify_navigation in Hnav.
  unfold exec. rewrite <- generateClickHandler_loaded.
  destruct (listener_with_cases (openLinkText (Some hostOpenLinkText)) event h)
    as [[activated [_ Hrun]] | [[path Hrun] | [Hother _]]].
  - rewrite Hrun. exists (map SetActiveLeaf activated).
    split; [reflexivity | apply activations_only].
  - rewrite Hrun.
    destruct (openLinkText_forced hostOpenLinkText path path None
                (afterCalls [StopPropagation event] h)) as [activated [_ ->]].
    exists ([StopPropagation event] ++ map SetActiveLeaf activated
            ++ [OldOpenLinkText path path
                  (Some (match activated with [] => true | _ :: _ => false end)) None]).
    split.
    + unfold hostOpenLinkText, record, afterActivating, afterCalls. simpl.
      now rewrite <- !app_assoc.
    + rewrite !existsb_app, !orb_false_iff.
      split; [reflexivity |]. split; [apply activations_only | reflexivity].
  - now destruct Hother.
Qed.

(** X10. On a target whose class tokens hold no space, the search-result
    test succeeds exactly when the target carries one of the five names
    search-result-file-title, tree-item-inner, search-result-file-matches,
    search-result-file-match, search-result: the first entry of the table,
    "tree-item search-result", is never a class token. *)
Theorem search_result_tokens (el : Element) :
  tokensWithoutSpace el ->
  isSearchResult el = true
  <-> exists className, In className (classList el) /\ In className searchResultTokens.
Proof.
  intros Htokens. unfold isSearchResult. rewrite existsb_exists. split.
  - intros [className [Hin Hcheck]]. exists className. split; [exact Hin |].
    apply contains_In in Hcheck. destruct Hcheck as [Hfirst | Hrest]; [| exact Hrest].
    specialize (Htokens className Hin). subst className. discriminate Htokens.
  - intros [className [Hin Hname]]. exists className. split; [exact Hin |].
    apply contains_In. now right.
Qed.

(** X11. The navigation click with the wrapper installed as the
    workspace's method: for a path that does not start with "#", no pane
    displaying it and no empty pane being open, the listener stops the
    click's propagation and the wrapper then scans the panes by path
    ending; the original primitive receives the path twice and the flag
    true when no pane's path ends as the scan asks, and otherwise the flag
    false after the panes found were activated. *)
Theorem nav_click_through_wrapper old event (titleEl : Element) (path : string) h :
  pureClick event = true ->
  classify (target event) = NavigationFile ->
  closestWithClass "nav-file-title" (target event) = Some titleEl ->
  getAttribute titleEl "data-path" = Some path ->
  JS.before_first "#"%char path <> ""%string ->
  filter (displays path) (allLeaves h) = [] ->
  getLeavesOfType "empty" h = ([], h) ->
  let byEnding := filter (leafMatches (fileNameOf path)) (allLeaves h) in
  generateClickHandlerWith (openLinkText (Some old)) event h
  = old path path
        (Some (match byEnding with [] => true | _ :: _ => false end)) None
        (afterActivating byEnding (afterCalls [StopPropagation event] h)).
Proof.
  intros Hpure Hnav Hclosest Hattr Hhash Hnone Hempty byEnding.
  apply getLeavesOfType_inv in Hempty. apply classify_navigation in Hnav.
  assert (path <> ""%string) as Hpath by (intros ->; now apply Hhash).
  assert (isSameFileOf (fileNameOf path) path = false) as Hother.
  { apply not_true_is_false. intros Hsame.
    rewrite fileNameOf_before_first in Hsame. apply isSameFileOf_iff in Hsame.
    destruct Hsame as [Hsame | Hsame]; [now apply Hhash |].
    now apply LinkTextFacts.before_hash_md_neq in Hsame. }
  unfold generateClickHandlerWith. rewrite Hpure, Hnav.
  change (handleNavigationPanelWith (openLinkText (Some old)) event (target event) h
          = old path path (Some (match byEnding with [] => true | _ :: _ => false end)) None
                (afterActivating byEnding (afterCalls [StopPropagation event] h))).
  rewrite (handleNavigationPanelWith_run _ event _ titleEl path) by assumption.
  rewrite (openLinkText_other_file (Some old)) by exact Hother.
  reflexivity.
Qed.


End ListenerEdges.

(** ** The further theorems at work *)

Module MoreRuns.

Import Scenario MoreScenario.

(** The heading link "Plan#Goals" from Projects/Plan.md, asked to open in
    a new pane: the note's own pane is found and the flag becomes false. *)
Lemma heading_link_from_folder :
  isSameFileOf (fileNameOf "Plan#Goals") "Projects/Plan.md" = false
  /\ In leafDeep (filter (leafMatches (Some "Plan"%string)) (allLeaves hostDeep))
  /\ openLinkText (Some hostOpenLinkText) "Plan#Goals" "Projects/Plan.md"
                  (Some true) None hostDeep
     = hostOpenLinkText "Plan#Goals" "Projects/Plan.md" (Some false) None
         (afterActivating (filter (leafMatches (Some "Plan"%string)) (allLeaves hostDeep))
                          hostDeep).
Proof.
  apply (heading_link_in_folder_note
           hostOpenLinkText "Projects/" "Plan" "Goals" (Some true) None leafDeep hostDeep);
    try reflexivity; try discriminate.
  simpl. auto.
Defined.

(** The heading link "A#Intro" from A.md, asked to open in a new pane. *)
Lemma heading_link_from_root :
  isSameFileOf (fileNameOf "A") "A.md" = true
  /\ isSameFileOf (fileNameOf "A#Intro") "A.md" = true
  /\ openLinkText (Some hostOpenLinkText) "A#Intro" "A.md" (Some true) None hostAB
     = hostOpenLinkText "A#Intro" "A.md" (Some true) None hostAB.
Proof.
  apply (heading_link_in_root_note hostOpenLinkText "A" "Intro" (Some true) None hostAB).
  reflexivity.
Defined.

(** The link "B.md" from A.md with A.md, B.md and the file explorer open:
    the pane of B.md is not found and a second pane is asked for. *)
Lemma link_with_extension :
  ~ In leafB (filter (leafMatches (fileNameOf "B.md")) (allLeaves hostABExplorer))
  /\ openLinkText (Some hostOpenLinkText) "B.md" "A.md" None None hostABExplorer
     = hostOpenLinkText "B.md" "A.md" (Some true) None hostABExplorer.
Proof.
  destruct (link_with_extension_misses_open_note
              hostOpenLinkText "B.md" "A.md" "B.md" None None hostABExplorer
              eq_refl eq_refl) as [Hmiss Hflag].
  split.
  - apply (Hmiss leafB); reflexivity.
  - apply Hflag. intros leaf [<- | [<- | [<- | []]]];
      [right; reflexivity | right; reflexivity | left; split; reflexivity].
Defined.

(** A click on a settings button. *)
Lemma click_on_plain_button :
  generateClickHandler (click plainButton) hostAB = (tt, hostAB).
Proof.
  apply (unhandled_click_passes (click plainButton) hostAB); reflexivity.
Defined.

(** A click on a file-tree title that also carries "tree-item-inner". *)
Lemma click_on_tree_title :
  exists calls,
    trace (exec (generateClickHandler (click titlePicture)) hostAB) = trace hostAB ++ calls
    /\ existsb isDispatchEvent calls = false.
Proof.
  apply (nav_title_never_redispatched (click titlePicture) hostAB).
  reflexivity.
Defined.

(** A folder title carries "tree-item-inner" and nothing else the listener
    knows: it passes the search-result test. *)
Lemma folder_title_tokens :
  isSearchResult folderTitle = true
  <-> exists className,
      In className (classList folderTitle) /\ In className searchResultTokens.
Proof.
  apply (search_result_tokens folderTitle).
  intros className [<- | [<- | []]]; reflexivity.
Defined.

(** A click on the title of pic.png while img/pic.png is open. *)
Lemma click_on_picture_title :
  generateClickHandlerWith (openLinkText (Some hostOpenLinkText))
                           (click titlePicture) hostAPicture
  = hostOpenLinkText "pic.png" "pic.png"
      (Some (match filter (leafMatches (fileNameOf "pic.png")) (allLeaves hostAPicture) with
             | [] => true
             | _ :: _ => false
             end))
      None
      (afterActivating (filter (leafMatches (fileNameOf "pic.png")) (allLeaves hostAPicture))
                       (afterCalls [StopPropagation (click titlePicture)] hostAPicture)).
Proof.
  apply (nav_click_through_wrapper
           hostOpenLinkText (click titlePicture) rowPicture "pic.png" hostAPicture);
    try reflexivity; discriminate.
Defined.



(** A click on the title of the open Notes/X.md, A.md being active. *)
Lemma click_keeps_active_leaf_open :
  exists h',
    activeLeafOpen h'
    /\ ((exists activated,
            h' = afterActivating activated hostAX
            /\ generateClickHandlerWith (openLinkText (Some hostOpenLinkText))
                                        (click titleX) hostAX = (tt, h'))
        \/ (exists path flag,
               generateClickHandlerWith (openLinkText (Some hostOpenLinkText))
                                        (click titleX) hostAX
               = hostOpenLinkText path path (Some flag) None h')
        \/ generateClickHandlerWith (openLinkText (Some hostOpenLinkText))
                                    (click titleX) hostAX
           = dispatchEvent (target (click titleX)) "click" metaClickInit h').
Proof.
  apply (listener_activates_open_leaves hostOpenLinkText (click titleX) hostAX).
  unfold activeLeafOpen. simpl. auto.
Defined.

End MoreRuns.
